(** * simple-auth-live: the session-authenticated credential workflow

    A shallow embedding of [src/server.js]: the four Express routes
    ([POST /signup], [POST /login], [GET /profile], [POST /logout]) written
    as programs over the services they call (the [users] table behind
    [pool.query], [bcrypt], the [req.session] object), an interpreter of
    those services, and the session middleware configured at lines 42-51
    that loads [req.session] before a route runs and commits it after. *)

From Stdlib Require Import ZArith DecimalString.
From stdpp Require Import base option list gmap strings.

Local Open Scope string_scope.

(** ** Values of a request body

    [express.json()] and [express.urlencoded] leave in [req.body] whatever
    the client sent: a field may be missing ([undefined]), [null], a
    boolean, a number, a string, or an array/object.  A number is carried
    as the text [Number.prototype.toString] gives for it, which is what
    node-postgres sends and what tells zero from the others.  An array or
    object is carried as the text node-postgres sends for it when it is a
    query parameter. *)

Inductive jsval : Type :=
| JUndefined
| JNull
| JBool (b : bool)
| JNum (text : string)
| JStr (s : string)
| JObj (text : string).

(** JavaScript truthiness, the test behind [!email] and [!password]. *)
Definition truthy (v : jsval) : bool :=
  match v with
  | JUndefined | JNull => false
  | JBool b => b
  | JNum text => negb (String.eqb text "0") && negb (String.eqb text "NaN")
  | JStr s => negb (String.eqb s "")
  | JObj _ => true
  end.

(** The text of a query parameter ([$1]); [None] is SQL [NULL]. *)
Definition pg_text (v : jsval) : option string :=
  match v with
  | JUndefined | JNull => None
  | JBool b => Some (if b then "true" else "false")
  | JNum text => Some text
  | JStr s => Some s
  | JObj text => Some text
  end.

(** ** Data model *)

(** A value of PostgreSQL's [text] holds no NUL byte: a parameter that
    holds one is refused (22021) by every statement it is passed to. *)
Fixpoint holds_nul (s : string) : bool :=
  match s with
  | EmptyString => false
  | String c rest => Ascii.eqb c Ascii.zero || holds_nul rest
  end.

Record pgtext : Type := PgText {
  text_of : string;
  text_ok : holds_nul text_of = false
}.

(** Reading a parameter as [text]. *)
Definition pg_value (s : string) : option pgtext :=
  match holds_nul s as h return holds_nul s = h -> option pgtext with
  | false => fun ok => Some {| text_of := s; text_ok := ok |}
  | true => fun _ => None
  end eq_refl.

(** A bcrypt digest, [$2b$<cost>$<salt><key>], kept as its three parts. *)
Record digest : Type := Digest {
  d_cost : nat;
  d_salt : nat;
  d_key : string
}.

(** A row of [users] (lines 23-28). *)
Record user_row : Type := UserRow {
  u_id : nat;
  u_text : pgtext;
  u_password_hash : digest;
  u_created_at : Z
}.

(** The [email] column of a row. *)
Definition u_email (u : user_row) : string := text_of (u_text u).

(** What [req.session] holds besides its cookie. *)
Record session_data : Type := SessionData {
  userId : option nat;
  s_email : option string
}.

(** A row of the [session] table: the data and its expiry instant. *)
Record session_record : Type := SessionRecord {
  sess : session_data;
  expire : Z
}.

#[global] Instance digest_eq_dec : EqDecision digest.
Proof. solve_decision. Defined.

#[global] Instance session_data_eq_dec : EqDecision session_data.
Proof. solve_decision. Defined.

Definition empty_session : session_data :=
  {| userId := None; s_email := None |}.

(** The database and the random generator of the process.  [users_id_seq]
    is the last value of the [SERIAL] sequence of [users.id]; [draws]
    counts the random values taken so far. *)
Record world : Type := World {
  users : list user_row;
  users_id_seq : nat;
  sessions : gmap nat session_record;
  draws : nat
}.

(** The request-local state: the id of [req.session] and its data, [None]
    once [req.session.destroy] has deleted it. *)
Record reqstate : Type := ReqState {
  sid : nat;
  session : option session_data
}.

(** ** Responses *)

Inductive colval : Type :=
| CInt (n : nat)
| CText (s : string)
| CTime (t : Z)
| CDigest (d : digest).

(** A result row as the object node-postgres builds: column name, value. *)
Definition row : Type := list (string * colval).

Inductive body : Type :=
| ErrorBody (error : string)                    (* { error } *)
| AuthBody (message : string) (email : string)  (* { success: true, message, email } *)
| ProfileBody (user : row)                      (* { user } *)
| SuccessBody.                                  (* { success: true } *)

Record response : Type := Response {
  status : nat;
  json : body
}.

(** [res.json(b)] answers with status 200. *)
Definition res_json (b : body) : response := {| status := 200; json := b |}.

(** ** Services a route calls *)

Inductive exn : Type :=
| UniqueViolation     (* 23505 on [users_email_key] *)
| NotNullViolation    (* 23502 *)
| InvalidByteSequence (* 22021: a NUL byte in a text parameter *)
| IndexRowTooLong     (* 54000: the email does not fit a row of [users_email_key] *)
| BcryptTypeError     (* bcrypt: data must be a string *)
| TypeError.          (* a property read from [undefined] *)

Inductive op : Type -> Type :=
| SelectUserByEmail (email : jsval) : op (list user_row)
| InsertUser (email : jsval) (hash : digest) : op (list (nat * string))
| SelectProfileById (i : nat) : op (list row)
| BcryptHash (data : jsval) (rounds : nat) : op digest
| BcryptCompare (data : jsval) (hash : digest) : op bool
| SessionGetUserId : op (option nat)
| SessionSetUserId (i : nat) : op unit
| SessionSetEmail (e : string) : op unit
| SessionDestroy : op unit.

(** A route is a program: it returns, throws, or calls a service and goes
    on with what the service answers, a value or an error. *)
Inductive prog (A : Type) : Type :=
| Ret (a : A)
| Throw (e : exn)
| Vis {X : Type} (o : op X) (k : exn + X -> prog A).

Arguments Ret {A} a.
Arguments Throw {A} e.
Arguments Vis {A X} o k.

Fixpoint bind {A B : Type} (p : prog A) (f : A -> prog B) : prog B :=
  match p with
  | Ret a => f a
  | Throw e => Throw e
  | Vis o k => Vis o (fun x => bind (k x) f)
  end.

(** [try { p } catch (err) { h err }] *)
Fixpoint try_catch {A : Type} (p : prog A) (h : exn -> prog A) : prog A :=
  match p with
  | Ret a => Ret a
  | Throw e => h e
  | Vis o k => Vis o (fun x => try_catch (k x) h)
  end.

(** Call a service; an error it reports is thrown ([await] of a rejected
    promise, or a synchronous throw). *)
Definition perform {X : Type} (o : op X) : prog X :=
  Vis o (fun r => match r with inl e => Throw e | inr x => Ret x end).

Notation "x <- p ;; q" := (bind p (fun x => q))
  (at level 100, p at next level, right associativity).
Notation "p ;;; q" := (bind p (fun _ => q))
  (at level 100, right associativity).

(** ** The routes of [src/server.js] *)

Record reqbody : Type := ReqBody {
  b_email : jsval;
  b_password : jsval
}.

(** Lines 57-60. *)
Definition findUserByEmail (email : jsval) : prog (option user_row) :=
  res <- perform (SelectUserByEmail email) ;;
  Ret (head res).

(** Lines 63-85. *)
Definition signup (b : reqbody) : prog response :=
  try_catch
    (let email := b_email b in
     let password := b_password b in
     if negb (truthy email) || negb (truthy password) then
       Ret {| status := 400; json := ErrorBody "Email and password required" |}
     else
       existing <- findUserByEmail email ;;
       if existing is Some _ then
         Ret {| status := 409; json := ErrorBody "User already exists" |}
       else
         hash <- perform (BcryptHash password 10) ;;
         insert <- perform (InsertUser email hash) ;;
         match head insert with
         | None => Throw TypeError
         | Some (new_id, new_email) =>
             perform (SessionSetUserId new_id) ;;;
             perform (SessionSetEmail new_email) ;;;
             Ret (res_json (AuthBody "Account created" new_email))
         end)
    (fun _ => Ret {| status := 500; json := ErrorBody "Server error" |}).

(** Lines 88-107. *)
Definition login (b : reqbody) : prog response :=
  try_catch
    (let email := b_email b in
     let password := b_password b in
     if negb (truthy email) || negb (truthy password) then
       Ret {| status := 400; json := ErrorBody "Email and password required" |}
     else
       user <- findUserByEmail email ;;
       match user with
       | None => Ret {| status := 401; json := ErrorBody "Invalid credentials" |}
       | Some user =>
           ok <- perform (BcryptCompare password (u_password_hash user)) ;;
           if negb ok then
             Ret {| status := 401; json := ErrorBody "Invalid credentials" |}
           else
             perform (SessionSetUserId (u_id user)) ;;;
             perform (SessionSetEmail (u_email user)) ;;;
             Ret (res_json (AuthBody "Logged in" (u_email user)))
       end)
    (fun _ => Ret {| status := 500; json := ErrorBody "Server error" |}).

(** [!req.session.userId]: no user id, or the number 0. *)
Definition falsy_id (i : option nat) : bool :=
  match i with
  | Some (S _) => false
  | _ => true
  end.

(** Lines 110-115; there is no [try] around it.  Past the test of line 111
    the user id is a non-zero number, the parameter of the query. *)
Definition profile : prog response :=
  uid <- perform SessionGetUserId ;;
  if falsy_id uid then
    Ret {| status := 401; json := ErrorBody "Not authenticated" |}
  else
    r <- perform (SelectProfileById (default 0 uid)) ;;
    match head r with
    | None => Ret {| status := 404; json := ErrorBody "User not found" |}
    | Some user => Ret (res_json (ProfileBody user))
    end.

(** Lines 118-123: the callback of [req.session.destroy] gets the error. *)
Definition logout : prog response :=
  Vis SessionDestroy (fun err =>
    match err with
    | inl _ => Ret {| status := 500; json := ErrorBody "Could not log out" |}
    | inr _ => Ret (res_json SuccessBody)
    end).

(** ** The services: PostgreSQL, bcrypt, the session object

    The database is taken to be reachable: a query is refused only for
    a parameter that is not [text], a constraint of the table it writes or
    the size of an index row.  Session ids and salts are natural
    numbers standing for the random strings of the libraries; time is in
    milliseconds. *)

(** Modelled from the spec: the Password Hasher of section 4.3 ([bcrypt]
    is a dependency, not under [src/]).  [kdf cost salt plaintext] is the
    slow one-way function; [hash] draws a fresh salt per call and keeps it
    in the digest, [compare] hashes the plaintext again under the salt
    embedded in the digest and compares.  Data that is not a string is
    rejected.

    [random i] is the [i]-th value of the process's random generator:
    salts of [bcrypt] and session ids are taken from it.

    [index_fits e] tells whether PostgreSQL can store [e] in a row of the
    btree index behind [UNIQUE] on [users.email] (at most 2704 bytes once
    compressed); an [INSERT] of a longer email is refused (54000). *)
Class platform : Type := Platform {
  kdf : nat -> nat -> string -> string;
  random : nat -> nat;
  index_fits : string -> bool
}.

Section Services.

Context {P : platform}.

Definition bcrypt_hash (data : jsval) (rounds salt : nat) : exn + digest :=
  match data with
  | JStr plaintext =>
      inr {| d_cost := rounds; d_salt := salt;
             d_key := kdf rounds salt plaintext |}
  | _ => inl BcryptTypeError
  end.

Definition bcrypt_compare (data : jsval) (hash : digest) : exn + bool :=
  match data with
  | JStr plaintext =>
      inr (String.eqb (kdf (d_cost hash) (d_salt hash) plaintext) (d_key hash))
  | _ => inl BcryptTypeError
  end.

(** A parameter PostgreSQL refuses to read as [text]. *)
Definition refused_text (v : jsval) : bool :=
  match pg_text v with
  | Some s => holds_nul s
  | None => false
  end.

(** [SELECT id, email, password_hash, created_at FROM users WHERE email = $1]:
    the rows of the result, when the parameter is accepted. *)
Definition select_user_by_email (w : world) (email : jsval) : list user_row :=
  match pg_text email with
  | Some e => filter (fun u => u_email u = e) (users w)
  | None => []
  end.

(** The query of line 58 as [pool.query] settles it. *)
Definition query_user_by_email (w : world) (email : jsval)
  : exn + list user_row :=
  if refused_text email then inl InvalidByteSequence
  else inr (select_user_by_email w email).

Definition column (name : string) (u : user_row) : option colval :=
  if String.eqb name "id" then Some (CInt (u_id u))
  else if String.eqb name "email" then Some (CText (u_email u))
  else if String.eqb name "password_hash" then Some (CDigest (u_password_hash u))
  else if String.eqb name "created_at" then Some (CTime (u_created_at u))
  else None.

Definition select_columns (names : list string) (u : user_row) : row :=
  omap (fun name => pair name <$> column name u) names.

(** [SELECT id, email, created_at FROM users WHERE id = $1] *)
Definition select_profile_by_id (w : world) (i : nat) : list row :=
  select_columns ["id"; "email"; "created_at"]
    <$> filter (fun u => u_id u = i) (users w).

(** [INSERT INTO users (email, password_hash) VALUES ($1, $2) RETURNING id, email]:
    an email that is not [text] is refused when the parameters are read;
    otherwise the id comes from the sequence, which advances whether or
    not the row is accepted; [created_at] defaults to the current time;
    [email] is [NOT NULL], [UNIQUE], and has to fit the index behind
    [UNIQUE]. *)
Definition insert_user (now : Z) (w : world) (email : jsval) (hash : digest)
  : (exn + list (nat * string)) * world :=
  let new_id := S (users_id_seq w) in
  let w' := {| users := users w; users_id_seq := new_id;
               sessions := sessions w; draws := draws w |} in
  match pg_text email with
  | None => (inl NotNullViolation, w')
  | Some e =>
      match pg_value e with
      | None => (inl InvalidByteSequence, w)
      | Some t =>
          if bool_decide (e ∈ u_email <$> users w) then (inl UniqueViolation, w')
          else if index_fits e then
            (inr [(new_id, e)],
             {| users := users w ++ [{| u_id := new_id; u_text := t;
                                        u_password_hash := hash;
                                        u_created_at := now |}];
                users_id_seq := new_id;
                sessions := sessions w; draws := draws w |})
          else (inl IndexRowTooLong, w')
      end
  end.

Definition take_random (w : world) : nat * world :=
  (random (draws w),
   {| users := users w; users_id_seq := users_id_seq w;
      sessions := sessions w; draws := S (draws w) |}).

(** Modelled from the spec: the Session Store of section 4.2
    ([express-session] with [connect-pg-simple], not under [src/]):
    [destroy(token)] removes the record and reports no error when there is
    none. *)
Definition store_destroy (w : world) (token : nat) : world :=
  {| users := users w; users_id_seq := users_id_seq w;
     sessions := delete token (sessions w); draws := draws w |}.

Definition set_session (st : reqstate) (f : session_data -> session_data)
  : (exn + unit) * reqstate :=
  match session st with
  | Some d => (inr tt, {| sid := sid st; session := Some (f d) |})
  | None => (inl TypeError, st)
  end.

(** One call of a service at time [now], on the database and the state of
    the request that makes it. *)
Definition exec {X : Type} (now : Z) (o : op X) (s : world * reqstate)
  : (exn + X) * (world * reqstate) :=
  let (w, st) := s in
  match o in op X return (exn + X) * (world * reqstate) with
  | SelectUserByEmail email => (query_user_by_email w email, s)
  | InsertUser email hash =>
      let (r, w') := insert_user now w email hash in (r, (w', st))
  | SelectProfileById i => (inr (select_profile_by_id w i), s)
  | BcryptHash data rounds =>
      match data with
      | JStr _ =>
          let (salt, w') := take_random w in
          (bcrypt_hash data rounds salt, (w', st))
      | _ => (inl BcryptTypeError, s)
      end
  | BcryptCompare data hash => (bcrypt_compare data hash, s)
  | SessionGetUserId =>
      match session st with
      | Some d => (inr (userId d), s)
      | None => (inl TypeError, s)
      end
  | SessionSetUserId i =>
      let (r, st') :=
        set_session st (fun d => {| userId := Some i; s_email := s_email d |}) in
      (r, (w, st'))
  | SessionSetEmail e =>
      let (r, st') :=
        set_session st (fun d => {| userId := userId d; s_email := Some e |}) in
      (r, (w, st'))
  | SessionDestroy =>
      (inr tt, (store_destroy w (sid st), {| sid := sid st; session := None |}))
  end.

(** A call that was made, for the log of a run. *)
Definition event : Type := { X : Type & op X }.

(** Run a route to its end: what it returned or threw, the state it left,
    and the calls it made, in order. *)
Fixpoint run {A : Type} (now : Z) (p : prog A) (s : world * reqstate)
  : (exn + A) * (world * reqstate) * list event :=
  match p with
  | Ret a => (inr a, s, [])
  | Throw e => (inl e, s, [])
  | Vis o k =>
      let (x, s') := exec now o s in
      let '(r, s'', log) := run now (k x) s' in
      (r, s'', existT _ o :: log)
  end.

(** ** The session middleware (lines 42-51)

    [express-session] is a dependency; what it does around a route is
    written here for the options of lines 42-51: a store that keeps
    records until they expire, [resave: false], [saveUninitialized: false]
    and a cookie of 24 hours. *)

(** [cookie: { maxAge: 24*60*60*1000 }] *)
Definition maxAge : Z := 24 * 60 * 60 * 1000.

(** Modelled from the spec: the Session Store of section 4.2:
    [get(token)] returns the record if present and not expired; an expired
    record is treated as absent. *)
Definition store_get (now : Z) (w : world) (token : nat) : option session_data :=
  match sessions w !! token with
  | Some r => if bool_decide (now ≤ expire r)%Z then Some (sess r) else None
  | None => None
  end.

(** Modelled from the spec: the Session Store of section 4.2: the record
    is persisted with absolute expiry [now + ttl]. *)
Definition store_set (now : Z) (w : world) (token : nat) (d : session_data) : world :=
  {| users := users w; users_id_seq := users_id_seq w;
     sessions := <[token := {| sess := d; expire := (now + maxAge)%Z |}]> (sessions w);
     draws := draws w |}.

(** Modelled from the spec: the store-level expiry refresh of section 3,
    which the middleware asks for when a loaded session was not changed
    ([resave: false]). *)
Definition store_touch (now : Z) (w : world) (token : nat) : world :=
  {| users := users w; users_id_seq := users_id_seq w;
     sessions :=
       alter (fun r => {| sess := sess r; expire := (now + maxAge)%Z |})
             token (sessions w);
     draws := draws w |}.

(** Before the route: the session of the cookie if the store has it, else
    a new empty session under a new random id.  The third component is the
    data that was loaded, if any. *)
Definition session_load (now : Z) (w : world) (cookie : option nat)
  : world * reqstate * option session_data :=
  match cookie with
  | Some token =>
      match store_get now w token with
      | Some d => (w, {| sid := token; session := Some d |}, Some d)
      | None =>
          let (new_sid, w') := take_random w in
          (w', {| sid := new_sid; session := Some empty_session |}, None)
      end
  | None =>
      let (new_sid, w') := take_random w in
      (w', {| sid := new_sid; session := Some empty_session |}, None)
  end.

(** After the route: a destroyed session is left alone; a session whose
    data changed is saved and its id sent as the cookie; an unchanged one
    that came from the store is touched; a new unchanged one is dropped
    ([saveUninitialized: false]). *)
Definition session_commit (now : Z) (loaded : option session_data)
    (w : world) (st : reqstate) : world * option nat :=
  match session st with
  | None => (w, None)
  | Some d =>
      if bool_decide (d = default empty_session loaded) then
        match loaded with
        | Some _ => (store_touch now w (sid st), None)
        | None => (w, None)
        end
      else (store_set now w (sid st) d, Some (sid st))
  end.

Inductive route : Type :=
| PostSignup (b : reqbody)
| PostLogin (b : reqbody)
| GetProfile
| PostLogout.

Record request : Type := Request {
  cookie : option nat;
  target : route
}.

Definition handler (r : route) : prog response :=
  match r with
  | PostSignup b => signup b
  | PostLogin b => login b
  | GetProfile => profile
  | PostLogout => logout
  end.

Record reply : Type := Reply {
  answer : response;
  set_cookie : option nat
}.

(** One request served at time [now]: the database it leaves and the
    reply, [None] when the route threw without answering. *)
Definition serve (now : Z) (w : world) (req : request) : world * option reply :=
  let '(w1, st, loaded) := session_load now w (cookie req) in
  let '(out, (w2, st2), _) := run now (handler (target req)) (w1, st) in
  match out with
  | inr resp =>
      let (w3, c) := session_commit now loaded w2 st2 in
      (w3, Some {| answer := resp; set_cookie := c |})
  | inl _ => (w2, None)
  end.

(** Requests served one after the other, each at its own time. *)
Fixpoint serve_all (w : world) (reqs : list (Z * request)) : world :=
  match reqs with
  | [] => w
  | (now, req) :: rest => serve_all (fst (serve now w req)) rest
  end.

(** ** Two requests in flight

    Each call of a service is atomic; between two calls of one request the
    other may run.  A thread is what is left of a route and the state of
    its request. *)
Record thread : Type := Thread {
  code : prog response;
  local : reqstate
}.

Definition step (now : Z) (w : world) (t : thread) : world * thread :=
  match code t with
  | Vis o k =>
      let '(x, (w', st')) := exec now o (w, local t) in
      (w', {| code := k x; local := st' |})
  | _ => (w, t)
  end.

(** [schedule]: [true] lets the first thread make its next call, [false]
    the second. *)
Fixpoint interleave (now : Z) (schedule : list bool) (w : world) (a b : thread)
  : world * thread * thread :=
  match schedule with
  | [] => (w, a, b)
  | true :: rest =>
      let (w', a') := step now w a in interleave now rest w' a' b
  | false :: rest =>
      let (w', b') := step now w b in interleave now rest w' a b'
  end.

End Services.

(** ** A sample platform and sample databases *)

(** A stand-in for the key derivation that keeps cost and salt apart, and a
    random generator that never repeats. *)
Definition sample_platform : platform :=
  {| kdf := fun cost salt plaintext =>
              plaintext +:+ "$" +:+ NilZero.string_of_uint (Nat.to_uint salt)
                        +:+ "$" +:+ NilZero.string_of_uint (Nat.to_uint cost);
     random := fun i => 100 + i;
     index_fits := fun e => (String.length e <=? 2704)%nat |}.

Definition empty_world : world :=
  {| users := []; users_id_seq := 0; sessions := ∅; draws := 0 |}.

Definition alice : reqbody :=
  {| b_email := JStr "a@x.com"; b_password := JStr "pw1" |}.

Definition alice_wrong : reqbody :=
  {| b_email := JStr "a@x.com"; b_password := JStr "wrong" |}.



Definition bob : reqbody :=
  {| b_email := JStr "b@x.com"; b_password := JStr "pw1" |}.

(** The database after Alice signed up at time 1000 without a cookie: her
    account has id 1 and her session has id 100. *)
Definition alice_world : world :=
  fst (serve (P := sample_platform) 1000 empty_world
         {| cookie := None; target := PostSignup alice |}).

(** ** Words of the specification *)

(** A field that is "empty or missing". *)
Definition empty_or_missing (v : jsval) : Prop :=
  v = JUndefined ∨ v = JNull ∨ v = JStr "".

(** The email has an account. *)
Definition registered (w : world) (e : string) : Prop :=
  e ∈ u_email <$> users w.

(** The token was handed out by the random generator. *)
Definition issued `{platform} (w : world) (token : nat) : Prop :=
  ∃ i, (i < draws w)%nat ∧ random i = token.

(** Every token of the session table was handed out by the generator. *)
Definition tokens_issued `{platform} (w : world) : Prop :=
  ∀ token, is_Some (sessions w !! token) → issued w token.

(** The random generator never repeats a value. *)
Definition never_repeats `{platform} : Prop :=
  ∀ i j, random i = random j → i = j.

(** The account with a given id, as [SELECT ... WHERE id = $1] finds it. *)
Definition account_by_id (w : world) (i : nat) : option user_row :=
  head (filter (λ u, u_id u = i) (users w)).

(** The columns of the profile query. *)
Definition profile_row (u : user_row) : row :=
  [("id", CInt (u_id u)); ("email", CText (u_email u));
   ("created_at", CTime (u_created_at u))].

(** An object that has a field named [password_hash] or a digest as a value. *)
Definition mentions_digest (r : row) : Prop :=
  "password_hash" ∈ r.*1 ∨ ∃ d, CDigest d ∈ r.*2.

(** The account a signup creates in [w] at time [now]. *)
Definition new_account `{platform} (now : Z) (w : world) (e : pgtext) (p : string)
  : user_row :=
  {| u_id := S (users_id_seq w); u_text := e;
     u_password_hash :=
       {| d_cost := 10; d_salt := random (draws w);
          d_key := kdf 10 (random (draws w)) p |};
     u_created_at := now |}.

(** A route never adds a session record and never takes back a random
    value; the id of its request's session stays. *)
Definition route_frame (s s' : world * reqstate) : Prop :=
  sid s'.2 = sid s.2 ∧ (draws s.1 ≤ draws s'.1)%nat ∧
  ∀ token, sessions s.1 !! token = None → sessions s'.1 !! token = None.

(** Once a token that was issued has no record, no request brings one
    back: new ids come from later random values. *)
Definition gone `{platform} (w : world) (token : nat) : Prop :=
  sessions w !! token = None ∧ issued w token.

(** The schedule of two signups in flight in which both look the email up
    before either inserts. *)
Definition race_schedule : list bool :=
  [true; false; true; false; true; false; true; true].

(** A request that arrives without a cookie, as a thread. *)
Definition new_thread (p : prog response) (i : nat) : thread :=
  {| code := p; local := {| sid := i; session := Some empty_session |} |}.

(** Alice's row in [alice_world]. *)
Definition alice_row : user_row :=
  {| u_id := 1; u_text := {| text_of := "a@x.com"; text_ok := eq_refl |};
     u_password_hash :=
       {| d_cost := 10; d_salt := 101; d_key := "pw1$101$10" |};
     u_created_at := 1000 |}.

(** Alice's session in [alice_world], under token 100. *)
Definition alice_session : session_record :=
  {| sess := {| userId := Some 1; s_email := Some "a@x.com" |};
     expire := 86401000 |}.

Definition bad_request : response :=
  {| status := 400; json := ErrorBody "Email and password required" |}.

Definition conflict : response :=
  {| status := 409; json := ErrorBody "User already exists" |}.

Definition invalid_credentials : response :=
  {| status := 401; json := ErrorBody "Invalid credentials" |}.

Definition not_authenticated : response :=
  {| status := 401; json := ErrorBody "Not authenticated" |}.

Definition user_not_found : response :=
  {| status := 404; json := ErrorBody "User not found" |}.

Definition server_error : response :=
  {| status := 500; json := ErrorBody "Server error" |}.

(** ** Invariants of the [users] table *)

(** What the schema of lines 23-28 promises: [email] is [UNIQUE], [id] is a
    [PRIMARY KEY] drawn from a sequence that starts at 1. *)
Definition well_formed (w : world) : Prop :=
  NoDup (u_email <$> users w) ∧
  NoDup (u_id <$> users w) ∧
  Forall (λ u, (0 < u_id u ≤ users_id_seq w)%nat) (users w).

(** The [users] table and its sequence are the same in two databases. *)
Definition same_accounts (w w' : world) : Prop :=
  users w' = users w ∧ users_id_seq w' = users_id_seq w.

(** The session a successful signup or login leaves for an account. *)
Definition session_of (u : user_row) : session_data :=
  {| userId := Some (u_id u); s_email := Some (u_email u) |}.

(** The statuses a route can answer with. *)
Definition statuses (r : route) : list nat :=
  match r with
  | PostSignup _ => [200; 400; 409; 500]
  | PostLogin _ => [200; 400; 401; 500]
  | GetProfile => [200; 401; 404]
  | PostLogout => [200]
  end.

Definition is_logout (r : route) : bool :=
  match r with PostLogout => true | _ => false end.

Definition is_signup (r : route) : bool :=
  match r with PostSignup _ => true | _ => false end.

(** ** Properties *)

Section Properties.

Context {P : platform}.

Implicit Types (w : world) (st : reqstate) (now : Z) (b : reqbody).

Lemma empty_or_missing_falsy v : empty_or_missing v → truthy v = false.
Proof. by intros [-> | [-> | ->]]. Qed.

Lemma truthy_string s : s ≠ "" → truthy (JStr s) = true.
Proof. intros Hs. cbn. by destruct s. Qed.

Lemma signup_falsy b :
  truthy (b_email b) = false ∨ truthy (b_password b) = false →
  signup b = Ret bad_request.
Proof.
  intros H. unfold signup.
  assert (negb (truthy (b_email b)) || negb (truthy (b_password b)) = true) as ->.
  { destruct H as [-> | ->]; [done | apply orb_true_r]. }
  done.
Qed.

Lemma login_falsy b :
  truthy (b_email b) = false ∨ truthy (b_password b) = false →
  login b = Ret bad_request.
Proof.
  intros H. unfold login.
  assert (negb (truthy (b_email b)) || negb (truthy (b_password b)) = true) as ->.
  { destruct H as [-> | ->]; [done | apply orb_true_r]. }
  done.
Qed.

(** *** The database under the services *)

Lemma head_elem_of {A} (l : list A) (x : A) : head l = Some x → x ∈ l.
Proof. destruct l as [|y l]; [done |]. intros [= ->]. left. Qed.

Lemma pg_value_spec s :
  match pg_value s with
  | Some t => text_of t = s
  | None => holds_nul s = true
  end.
Proof.
  unfold pg_value.
  assert (∀ h (H : holds_nul s = h),
            match
              match h as h0 return holds_nul s = h0 → option pgtext with
              | false => λ ok, Some {| text_of := s; text_ok := ok |}
              | true => λ _, None
              end H
            with
            | Some t => text_of t = s
            | None => holds_nul s = true
            end) as Hgen by (by intros [] H).
  apply Hgen.
Qed.

Lemma pg_value_accepted s :
  holds_nul s = false → ∃ t, pg_value s = Some t ∧ text_of t = s.
Proof.
  intros Hs. pose proof (pg_value_spec s) as Hspec.
  destruct (pg_value s) as [t|]; [by exists t | congruence].
Qed.

Lemma email_accepted u : holds_nul (u_email u) = false.
Proof. apply text_ok. Qed.

Lemma registered_accepted w e : registered w e → holds_nul e = false.
Proof.
  unfold registered. intros (u & -> & _)%list_elem_of_fmap. apply email_accepted.
Qed.

Lemma filter_email_unregistered w e :
  ¬ registered w e → filter (λ u, u_email u = e) (users w) = [].
Proof.
  unfold registered. induction (users w) as [|u us IH]; [done |].
  rewrite fmap_cons, not_elem_of_cons. intros [Hne Hnot].
  rewrite filter_cons_False by congruence. auto.
Qed.

Lemma select_registered w e :
  registered w e → ∃ u, head (select_user_by_email w (JStr e)) = Some u ∧ u_email u = e.
Proof.
  unfold registered, select_user_by_email. cbn.
  induction (users w) as [|u us IH]; [by intros ?%elem_of_nil |].
  rewrite fmap_cons, elem_of_cons. intros Hin.
  destruct (decide (u_email u = e)) as [Heq | Hne].
  - exists u. by rewrite filter_cons_True.
  - rewrite filter_cons_False by done. destruct Hin; [congruence | auto].
Qed.

(** A parameter that matches a stored email is one PostgreSQL reads. *)
Lemma found_accepted w v u :
  head (select_user_by_email w v) = Some u → refused_text v = false.
Proof.
  unfold select_user_by_email, refused_text.
  destruct (pg_text v) as [e|]; [|done].
  intros Hin%head_elem_of. apply list_elem_of_filter in Hin as [<- _].
  apply email_accepted.
Qed.

Lemma query_found w v u :
  head (select_user_by_email w v) = Some u →
  query_user_by_email w v = inr (select_user_by_email w v).
Proof. intros Hu. unfold query_user_by_email. by rewrite (found_accepted w v u). Qed.

Lemma query_accepted w v :
  refused_text v = false →
  query_user_by_email w v = inr (select_user_by_email w v).
Proof. intros Hv. unfold query_user_by_email. by rewrite Hv. Qed.

Lemma bcrypt_compare_hash plaintext rounds salt d :
  bcrypt_hash (JStr plaintext) rounds salt = inr d →
  bcrypt_compare (JStr plaintext) d = inr true.
Proof. intros [= <-]. cbn. by rewrite String.eqb_refl. Qed.

(** *** The middleware around a route *)

Lemma session_load_spec now w ck :
  ∃ w1 st ld,
    session_load now w ck = (w1, st, ld) ∧
    session st = Some (default empty_session ld) ∧
    users w1 = users w ∧ users_id_seq w1 = users_id_seq w ∧
    sessions w1 = sessions w ∧
    match ld with
    | Some d => ck = Some (sid st) ∧ store_get now w (sid st) = Some d ∧ w1 = w
    | None => sid st = random (draws w) ∧ draws w1 = S (draws w)
    end.
Proof.
  unfold session_load. destruct ck as [token|]; [|by eexists _, _, _].
  destruct (store_get now w token) as [d|] eqn:Hget; by eexists _, _, _.
Qed.

Lemma session_commit_db now ld w st :
  users (session_commit now ld w st).1 = users w ∧
  users_id_seq (session_commit now ld w st).1 = users_id_seq w ∧
  draws (session_commit now ld w st).1 = draws w.
Proof.
  unfold session_commit. destruct (session st); [|done].
  case_bool_decide; [by destruct ld | done].
Qed.

Lemma session_commit_unchanged now ld w st :
  session st = Some (default empty_session ld) →
  session_commit now ld w st =
    (match ld with Some _ => store_touch now w (sid st) | None => w end, None).
Proof.
  intros Hs. unfold session_commit. rewrite Hs.
  rewrite bool_decide_eq_true_2 by done. by destruct ld.
Qed.

Lemma serve_answered now w req w1 st ld resp w2 st2 log :
  session_load now w (cookie req) = (w1, st, ld) →
  run now (handler (target req)) (w1, st) = (inr resp, (w2, st2), log) →
  serve now w req =
    ((session_commit now ld w2 st2).1,
     Some {| answer := resp; set_cookie := (session_commit now ld w2 st2).2 |}).
Proof.
  intros Hload Hrun. unfold serve. rewrite Hload, Hrun.
  by destruct (session_commit now ld w2 st2).
Qed.

(** *** The routes, run on a loaded session *)


Lemma run_signup_registered now w st b :
  truthy (b_email b) = true → truthy (b_password b) = true →
  head (select_user_by_email w (b_email b)) ≠ None →
  run now (signup b) (w, st) =
    (inr conflict, (w, st), [existT _ (SelectUserByEmail (b_email b))]).
Proof.
  intros He Hp Hreg. unfold signup, findUserByEmail. rewrite He, Hp.
  cbn -[query_user_by_email].
  destruct (head (select_user_by_email w (b_email b))) as [u|] eqn:Hu; [|done].
  rewrite (query_found w _ u Hu). cbn. by rewrite Hu.
Qed.

Lemma run_login_unknown now w st b :
  truthy (b_email b) = true → truthy (b_password b) = true →
  refused_text (b_email b) = false →
  head (select_user_by_email w (b_email b)) = None →
  run now (login b) (w, st) =
    (inr invalid_credentials, (w, st), [existT _ (SelectUserByEmail (b_email b))]).
Proof.
  intros He Hp Hok Hnone. unfold login, findUserByEmail. rewrite He, Hp.
  cbn -[query_user_by_email]. rewrite (query_accepted w _ Hok). cbn.
  by rewrite Hnone.
Qed.

Lemma run_login_checked now w st b u (ok : bool) :
  truthy (b_email b) = true → truthy (b_password b) = true →
  head (select_user_by_email w (b_email b)) = Some u →
  bcrypt_compare (b_password b) (u_password_hash u) = inr ok →
  ∃ log,
    run now (login b) (w, st) =
      if ok then
        match session st with
        | Some d =>
            (inr (res_json (AuthBody "Logged in" (u_email u))),
             (w, {| sid := sid st;
                    session := Some {| userId := Some (u_id u);
                                       s_email := Some (u_email u) |} |}),
             log)
        | None => (inr server_error, (w, st), log)
        end
      else (inr invalid_credentials, (w, st), log).
Proof.
  intros He Hp Hu Hok. unfold login, findUserByEmail. rewrite He, Hp.
  cbn -[query_user_by_email]. rewrite (query_found w _ u Hu). cbn.
  rewrite Hu. cbn. rewrite Hok. destruct ok; cbn; [|by eexists].
  unfold set_session. destruct st as [i [d|]]; cbn; by eexists.
Qed.

(** *** Signup, then login *)



(** For requests whose password the hasher compares, the two causes of a
    failed login get the same reply: 401, "Invalid credentials", no
    cookie set. *)
Lemma login_failures_alike now now' w ck ck' b b' u :
  truthy (b_email b) = true → truthy (b_password b) = true →
  refused_text (b_email b) = false →
  head (select_user_by_email w (b_email b)) = None →
  truthy (b_email b') = true → truthy (b_password b') = true →
  head (select_user_by_email w (b_email b')) = Some u →
  bcrypt_compare (b_password b') (u_password_hash u) = inr false →
  (serve now w {| cookie := ck; target := PostLogin b |}).2 =
    Some {| answer := invalid_credentials; set_cookie := None |} ∧
  (serve now' w {| cookie := ck'; target := PostLogin b' |}).2 =
    Some {| answer := invalid_credentials; set_cookie := None |}.
Proof.
  intros He Hp Hok Hnone He' Hp' Hu Hwrong. split.
  - destruct (session_load_spec now w ck)
      as (w1 & st & ld & Hload & Hs & Hu1 & _).
    assert (head (select_user_by_email w1 (b_email b)) = None) as Hnone1.
    { unfold select_user_by_email in *. by rewrite Hu1. }
    rewrite (serve_answered now w {| cookie := ck; target := PostLogin b |}
               _ _ _ _ _ _ _ Hload
               (run_login_unknown now w1 st b He Hp Hok Hnone1)).
    by rewrite session_commit_unchanged.
  - destruct (session_load_spec now' w ck')
      as (w1 & st & ld & Hload & Hs & Hu1 & _).
    assert (head (select_user_by_email w1 (b_email b')) = Some u) as Hfound.
    { unfold select_user_by_email in *. by rewrite Hu1. }
    destruct (run_login_checked now' w1 st b' u false He' Hp' Hfound Hwrong)
      as [log Hrun].
    rewrite (serve_answered now' w {| cookie := ck'; target := PostLogin b' |}
               _ _ _ _ _ _ _ Hload Hrun).
    by rewrite session_commit_unchanged.
Qed.

(** C4: on every database in which the (non-empty) email of the request
    has an account, a signup with that email and any password that passes
    the validation (any non-empty value, the password of the account
    included)
    answers 409 ("User already exists"), sets no cookie and leaves the
    [users] table and its id sequence as they were. *)
Theorem signup_registered_conflicts now w ck (e : string) (password : jsval) :
  e ≠ "" → registered w e → truthy password = true →
  let after :=
    serve now w {| cookie := ck;
                   target := PostSignup {| b_email := JStr e;
                                           b_password := password |} |} in
  after.2 = Some {| answer := conflict; set_cookie := None |} ∧
  users after.1 = users w ∧ users_id_seq after.1 = users_id_seq w.
Proof.
  intros He%truthy_string Hreg Hp after.
  destruct (select_registered w e Hreg) as (u & Hu & Hmail).
  destruct (session_load_spec now w ck)
    as (w1 & st & ld & Hload & Hs & Hu1 & Hseq1 & _).
  set (b := {| b_email := JStr e; b_password := password |}) in *.
  assert (head (select_user_by_email w1 (b_email b)) ≠ None) as Hfound.
  { unfold select_user_by_email in *. cbn in *. by rewrite Hu1, Hu. }
  pose proof (serve_answered now w {| cookie := ck; target := PostSignup b |}
                _ _ _ _ _ _ _ Hload
                (run_signup_registered now w1 st b He Hp Hfound)) as Hserve.
  subst after. rewrite Hserve. cbn [fst snd].
  rewrite session_commit_unchanged by done. cbn [fst snd].
  split; [done |]. by destruct ld.
Qed.

(** *** Profile and logout *)

Lemma run_profile now w st d :
  session st = Some d →
  run now profile (w, st) =
    if falsy_id (userId d) then
      (inr not_authenticated, (w, st), [existT _ SessionGetUserId])
    else
      match head (select_profile_by_id w (default 0 (userId d))) with
      | None =>
          (inr user_not_found, (w, st),
           [existT _ SessionGetUserId;
            existT _ (SelectProfileById (default 0 (userId d)))])
      | Some user =>
          (inr (res_json (ProfileBody user)), (w, st),
           [existT _ SessionGetUserId;
            existT _ (SelectProfileById (default 0 (userId d)))])
      end.
Proof.
  intros Hs. unfold profile. cbn. rewrite Hs. cbn.
  destruct (falsy_id (userId d)); [done |]. cbn.
  by destruct (head (select_profile_by_id w (default 0 (userId d)))).
Qed.

Lemma run_logout now w st :
  run now logout (w, st) =
    (inr (res_json SuccessBody),
     (store_destroy w (sid st), {| sid := sid st; session := None |}),
     [existT _ SessionDestroy]).
Proof. done. Qed.

Lemma head_select_profile w i :
  head (select_profile_by_id w i) = profile_row <$> account_by_id w i.
Proof.
  unfold select_profile_by_id, account_by_id.
  by destruct (filter (λ u, u_id u = i) (users w)).
Qed.

Lemma serve_profile_loaded now w token d :
  store_get now w token = Some d →
  (serve now w {| cookie := Some token; target := GetProfile |}).2 =
    Some {| answer :=
              if falsy_id (userId d) then not_authenticated
              else match account_by_id w (default 0 (userId d)) with
                   | Some u => res_json (ProfileBody (profile_row u))
                   | None => user_not_found
                   end;
            set_cookie := None |}.
Proof.
  intros Hget.
  assert (session_load now w (Some token)
          = (w, {| sid := token; session := Some d |}, Some d)) as Hload.
  { unfold session_load. by rewrite Hget. }
  pose proof (run_profile now w {| sid := token; session := Some d |} d eq_refl)
    as Hrun.
  rewrite head_select_profile in Hrun.
  destruct (falsy_id (userId d)).
  - rewrite (serve_answered now w {| cookie := Some token; target := GetProfile |}
               _ _ _ _ _ _ _ Hload Hrun).
    by rewrite session_commit_unchanged.
  - destruct (account_by_id w (default 0 (userId d))); cbn in Hrun;
      rewrite (serve_answered now w {| cookie := Some token; target := GetProfile |}
                 _ _ _ _ _ _ _ Hload Hrun);
      by rewrite session_commit_unchanged.
Qed.

(** What a request without a usable session gets from [/profile], and the
    database it leaves: only a random value was taken for the session id
    that is then dropped. *)
Lemma serve_profile_fresh now w ck :
  (∀ token, ck = Some token → store_get now w token = None) →
  serve now w {| cookie := ck; target := GetProfile |} =
    ((take_random w).2,
     Some {| answer := not_authenticated; set_cookie := None |}).
Proof.
  intros Hnone.
  assert (session_load now w ck
          = ((take_random w).2,
             {| sid := random (draws w); session := Some empty_session |}, None))
    as Hload.
  { unfold session_load. destruct ck as [token|]; [|done].
    by rewrite (Hnone token). }
  rewrite (serve_answered now w {| cookie := ck; target := GetProfile |}
             _ _ _ _ _ _ _ Hload
             (run_profile now _ {| sid := random (draws w);
                                   session := Some empty_session |}
                          empty_session eq_refl)).
  by rewrite session_commit_unchanged.
Qed.

(** C7: a profile request whose cookie names a session that the store
    returns, with a user id in it, gets: if [users] has an account with
    that id, status 200 and a [user] object with exactly the three fields
    id, email, created_at of that account, in which no field is named
    password_hash and no value is a digest; if there is none, status 404
    ("User not found"). *)
Theorem profile_of_valid_session now w token d uid :
  store_get now w token = Some d → userId d = Some uid → uid ≠ 0 →
  let rep := (serve now w {| cookie := Some token; target := GetProfile |}).2 in
  match account_by_id w uid with
  | Some u =>
      let user := [("id", CInt (u_id u)); ("email", CText (u_email u));
                   ("created_at", CTime (u_created_at u))] in
      rep = Some {| answer := {| status := 200; json := ProfileBody user |};
                    set_cookie := None |} ∧
      u_id u = uid ∧ ¬ mentions_digest user
  | None =>
      rep = Some {| answer := user_not_found; set_cookie := None |}
  end.
Proof.
  intros Hget Hid Hpos rep. subst rep.
  rewrite (serve_profile_loaded now w token d Hget), Hid.
  destruct uid as [|n]; [done |]. cbn [falsy_id default from_option id].
  destruct (account_by_id w (S n)) as [u|] eqn:Hacc; [|done].
  split; [done |]. split.
  - unfold account_by_id in Hacc.
    assert (u ∈ filter (λ u, u_id u = S n) (users w)) as Hin.
    { destruct (filter _ (users w)) as [|u0 us]; [done |].
      cbn in Hacc. injection Hacc as ->. left. }
    by apply list_elem_of_filter in Hin as [? _].
  - unfold mentions_digest. cbn. intros [Hname | [dg Hval]].
    + rewrite !elem_of_cons, elem_of_nil in Hname.
      by destruct Hname as [? | [? | [? | []]]].
    + rewrite !elem_of_cons, elem_of_nil in Hval.
      by destruct Hval as [? | [? | [? | []]]].
Qed.

(** C6: a profile request whose cookie names a session record that
    expired before [now] is served exactly as the same request without a
    cookie and as the same request with a cookie the store does not know:
    same reply, 401 ("Not authenticated") with no cookie set, and same
    database afterwards.  The expiry of a session is fixed when it is
    issued: whenever a reply sets a cookie, the store holds under that
    token a record expiring 24 hours (86400000 ms) after the request. *)
Theorem expired_session_is_absent now w token r :
  sessions w !! token = Some r → (expire r < now)%Z →
  let no_cookie := serve now w {| cookie := None; target := GetProfile |} in
  serve now w {| cookie := Some token; target := GetProfile |} = no_cookie ∧
  (∀ unknown, sessions w !! unknown = None →
     serve now w {| cookie := Some unknown; target := GetProfile |} = no_cookie) ∧
  no_cookie.2 = Some {| answer := not_authenticated; set_cookie := None |} ∧
  (∀ now0 w0 req rep issued_token,
     (serve now0 w0 req).2 = Some rep → set_cookie rep = Some issued_token →
     ∃ d, sessions (serve now0 w0 req).1 !! issued_token
          = Some {| sess := d; expire := (now0 + 86400000)%Z |}).
Proof.
  intros Hrec Hexp no_cookie. subst no_cookie.
  rewrite !(serve_profile_fresh now w None) by done.
  split; [|split; [|split; [done |]]].
  - apply serve_profile_fresh. intros ? [= <-]. unfold store_get.
    rewrite Hrec, bool_decide_eq_false_2; [done | lia].
  - intros unknown Hnone. apply serve_profile_fresh. intros ? [= <-].
    unfold store_get. by rewrite Hnone.
  - intros now0 w0 req rep tk. unfold serve.
    destruct (session_load now0 w0 (cookie req)) as [[w1 st] ld].
    destruct (run now0 (handler (target req)) (w1, st)) as [[out [w2 st2]] log].
    destruct out as [e | resp]; [done |].
    unfold session_commit. destruct (session st2) as [d|]; [|by intros [= <-]].
    case_bool_decide; [destruct ld; by intros [= <-] |].
    cbn. intros [= <-]. cbn. intros [= <-]. exists d.
    by rewrite lookup_insert_eq.
Qed.

(** *** What no route does to the session table *)

Lemma route_frame_refl s : route_frame s s.
Proof. by repeat split. Qed.

Lemma route_frame_trans s1 s2 s3 :
  route_frame s1 s2 → route_frame s2 s3 → route_frame s1 s3.
Proof.
  intros (Hi & Hd & Hs) (Hi' & Hd' & Hs'). repeat split;
    [congruence | lia | auto].
Qed.

Lemma exec_frame {X} now (o : op X) s : route_frame s (exec now o s).2.
Proof.
  destruct s as [w st].
  destruct o; cbn; try apply route_frame_refl.
  - unfold insert_user. destruct (pg_text email) as [e|]; [|by repeat split].
    destruct (pg_value e); [|by repeat split].
    case_bool_decide; [by repeat split |].
    destruct (index_fits e); by repeat split.
  - destruct data; try apply route_frame_refl.
    repeat split; cbn; [lia | done].
  - destruct (session st); apply route_frame_refl.
  - unfold set_session. destruct (session st); by repeat split.
  - unfold set_session. destruct (session st); by repeat split.
  - repeat split; cbn; [done |]. intros token Hnone.
    destruct (decide (sid st = token)) as [-> | Hne].
    + apply lookup_delete_eq.
    + by rewrite lookup_delete_ne.
Qed.

Lemma run_frame {A} now (p : prog A) s : route_frame s (run now p s).1.2.
Proof.
  revert s. induction p as [a | e | X o k IH]; intros s;
    [apply route_frame_refl | apply route_frame_refl |].
  cbn. pose proof (exec_frame now o s) as Hex.
  destruct (exec now o s) as [x s1].
  specialize (IH x s1). destruct (run now (k x) s1) as [[r s2] log].
  by eapply route_frame_trans.
Qed.

Lemma session_commit_gone now ld w st token :
  sid st ≠ token → sessions w !! token = None →
  sessions (session_commit now ld w st).1 !! token = None.
Proof.
  intros Hne Hnone. unfold session_commit. destruct (session st); [|done].
  case_bool_decide.
  - destruct ld; [|done]. cbn. by rewrite lookup_alter_ne.
  - cbn. by rewrite lookup_insert_ne.
Qed.

Lemma serve_gone now w req token :
  never_repeats → gone w token → gone (serve now w req).1 token.
Proof.
  intros Hfresh [Hnone (i & Hi & Htok)].
  destruct (session_load_spec now w (cookie req))
    as (w1 & st & ld & Hload & Hs & _ & _ & Hsess & Hld).
  assert (sid st ≠ token ∧ (draws w ≤ draws w1)%nat) as [Hne Hdraws].
  { destruct ld as [d|].
    - destruct Hld as (_ & Hget & ->). split; [|done]. intros Heq.
      unfold store_get in Hget. by rewrite Heq, Hnone in Hget.
    - destruct Hld as [Hsid Hd]. split; [|lia]. intros Heq.
      rewrite Hsid, <- Htok in Heq. apply Hfresh in Heq. lia. }
  unfold serve. rewrite Hload.
  pose proof (run_frame now (handler (target req)) (w1, st)) as (Hi2 & Hd2 & Hs2).
  destruct (run now (handler (target req)) (w1, st)) as [[out [w2 st2]] log].
  cbn in Hi2, Hd2, Hs2.
  assert (sessions w2 !! token = None) as Hnone2 by (apply Hs2; by rewrite Hsess).
  destruct out as [e | resp].
  - split; [done |]. exists i. split; [cbn; lia | done].
  - pose proof (session_commit_gone now ld w2 st2 token) as Hc.
    pose proof (session_commit_db now ld w2 st2) as (_ & _ & Hd3).
    destruct (session_commit now ld w2 st2) as [w3 c]. cbn in *.
    split; [apply Hc; [congruence | done] |].
    exists i. split; [lia | done].
Qed.

Lemma serve_all_gone w reqs token :
  never_repeats → gone w token → gone (serve_all w reqs) token.
Proof.
  intros Hfresh. revert w.
  induction reqs as [|[now req] reqs IH]; intros w Hgone; [done |].
  cbn. by apply IH, serve_gone.
Qed.

(** Every database the service reaches from the empty one holds only
    tokens that were issued. *)
Lemma issued_mono w w' token :
  (draws w ≤ draws w')%nat → issued w token → issued w' token.
Proof. intros Hle (i & Hi & Htok). exists i. split; [lia | done]. Qed.

Lemma session_commit_tokens now ld w st token :
  is_Some (sessions (session_commit now ld w st).1 !! token) →
  token = sid st ∨ is_Some (sessions w !! token).
Proof.
  unfold session_commit. destruct (session st); [|by right].
  case_bool_decide.
  - destruct ld; [|by right]. cbn.
    destruct (decide (sid st = token)) as [<- | Hne]; [by left |].
    rewrite lookup_alter_ne by done. by right.
  - cbn. destruct (decide (sid st = token)) as [<- | Hne]; [by left |].
    rewrite lookup_insert_ne by done. by right.
Qed.

Lemma serve_tokens_issued now w req :
  tokens_issued w → tokens_issued (serve now w req).1.
Proof.
  intros Hinv.
  destruct (session_load_spec now w (cookie req))
    as (w1 & st & ld & Hload & _ & _ & _ & Hsess & Hld).
  assert (issued w1 (sid st) ∧ (draws w ≤ draws w1)%nat) as [Hsid Hdraws].
  { destruct ld as [d|].
    - destruct Hld as (_ & Hget & ->). split; [|done]. apply Hinv.
      unfold store_get in Hget. by destruct (sessions w !! sid st).
    - destruct Hld as [-> Hd]. split; [|lia]. exists (draws w). split; [lia | done]. }
  unfold serve. rewrite Hload.
  pose proof (run_frame now (handler (target req)) (w1, st)) as (Hi2 & Hd2 & Hs2).
  destruct (run now (handler (target req)) (w1, st)) as [[out [w2 st2]] log].
  cbn in Hi2, Hd2, Hs2.
  assert (∀ token, is_Some (sessions w2 !! token) → issued w2 token) as Hinv2.
  { intros token Hsome. apply (issued_mono w); [lia |]. apply Hinv.
    rewrite <- Hsess. destruct (sessions w1 !! token) eqn:Hlook; [done |].
    apply Hs2 in Hlook. rewrite Hlook in Hsome. by destruct Hsome. }
  destruct out as [e | resp]; [done |].
  pose proof (session_commit_tokens now ld w2 st2) as Hc.
  pose proof (session_commit_db now ld w2 st2) as (_ & _ & Hd3).
  destruct (session_commit now ld w2 st2) as [w3 c]. cbn in *.
  intros token [-> | Hsome]%Hc.
  - apply (issued_mono w1); [lia |]. by rewrite Hi2.
  - apply (issued_mono w2); [lia |]. by apply Hinv2.
Qed.

Lemma reachable_tokens_issued reqs : tokens_issued (serve_all empty_world reqs).
Proof.
  assert (∀ w, tokens_issued w → tokens_issued (serve_all w reqs)) as Hall.
  { induction reqs as [|[now req] reqs IH]; intros w Hinv; [done |].
    cbn. by apply IH, serve_tokens_issued. }
  apply Hall. intros token Hsome. cbn in Hsome.
  rewrite lookup_empty in Hsome. by destruct Hsome.
Qed.

Lemma serve_logout now w ck :
  (serve now w {| cookie := ck; target := PostLogout |}).2 =
    Some {| answer := res_json SuccessBody; set_cookie := None |}.
Proof.
  destruct (session_load_spec now w ck) as (w1 & st & ld & Hload & _).
  by rewrite (serve_answered now w {| cookie := ck; target := PostLogout |}
                _ _ _ _ _ _ _ Hload (run_logout now w1 st)).
Qed.

(** C5: a session token that was issued and that the store returns is
    destroyed by Logout, which answers 200 ([{ success: true }]); after
    that, whatever requests are served in between and whenever, a Profile
    request presenting the token answers 401 ("Not authenticated"), and a
    second Logout presenting it answers 200 again. *)
Theorem destroyed_token_never_authenticates now w token d reqs now' :
  never_repeats → issued w token → store_get now w token = Some d →
  let logged_out := serve now w {| cookie := Some token; target := PostLogout |} in
  let later := serve_all logged_out.1 reqs in
  logged_out.2 =
    Some {| answer := res_json SuccessBody; set_cookie := None |} ∧
  sessions logged_out.1 !! token = None ∧
  (serve now' later {| cookie := Some token; target := GetProfile |}).2 =
    Some {| answer := not_authenticated; set_cookie := None |} ∧
  (serve now' later {| cookie := Some token; target := PostLogout |}).2 =
    Some {| answer := res_json SuccessBody; set_cookie := None |}.
Proof.
  intros Hfresh (i & Hi & Htok) Hget logged_out later.
  assert (gone logged_out.1 token) as Hgone.
  { subst logged_out.
    assert (session_load now w (Some token)
            = (w, {| sid := token; session := Some d |}, Some d)) as Hload.
    { unfold session_load. by rewrite Hget. }
    rewrite (serve_answered now w {| cookie := Some token; target := PostLogout |}
               _ _ _ _ _ _ _ Hload (run_logout now w _)).
    split; [apply lookup_delete_eq | by exists i]. }
  split; [apply serve_logout |]. split; [apply Hgone |].
  split; [|apply serve_logout].
  destruct (serve_all_gone _ reqs token Hfresh Hgone) as [Hnone _].
  fold later in Hnone.
  rewrite serve_profile_fresh; [done |].
  intros ? [= <-]. unfold store_get. by rewrite Hnone.
Qed.

(** *** A login that fails *)

Lemma run_login_answers now b s : ∃ resp, (run now (login b) s).1.1 = inr resp.
Proof.
  destruct s as [w [i s]]. unfold login, findUserByEmail.
  destruct (truthy (b_email b)), (truthy (b_password b));
    cbn -[query_user_by_email]; try by eexists.
  destruct (query_user_by_email w (b_email b)) as [e | rows]; cbn;
    [by eexists |].
  destruct (head rows) as [u|]; cbn; [|by eexists].
  destruct (bcrypt_compare (b_password b) (u_password_hash u)) as [e | [|]];
    cbn; try by eexists.
  unfold set_session. destruct s; cbn; by eexists.
Qed.

Lemma run_login_failed now b s resp :
  (run now (login b) s).1.1 = inr resp → status resp ≠ 200 →
  (run now (login b) s).1.2 = s.
Proof.
  destruct s as [w [i s]]. unfold login, findUserByEmail.
  destruct (truthy (b_email b)), (truthy (b_password b));
    cbn -[query_user_by_email]; try done.
  destruct (query_user_by_email w (b_email b)) as [e | rows]; cbn; [done |].
  destruct (head rows) as [u|]; cbn; [|done].
  destruct (bcrypt_compare (b_password b) (u_password_hash u)) as [e | [|]];
    cbn; try done.
  unfold set_session. destruct s; cbn; [|done].
  by intros [= <-].
Qed.

Lemma store_touch_get now w token d :
  store_get now w token = Some d →
  ∀ t, store_get now (store_touch now w token) t = store_get now w t ∧
       sess <$> sessions (store_touch now w token) !! t = sess <$> sessions w !! t.
Proof.
  intros Hget t. unfold store_get, store_touch in *. cbn.
  destruct (decide (token = t)) as [<- | Hne].
  - rewrite lookup_alter_eq. destruct (sessions w !! token) as [r|]; [|done].
    cbn. split; [|done]. case_bool_decide; [|done].
    rewrite bool_decide_eq_true_2; [done |]. unfold maxAge. lia.
  - by rewrite lookup_alter_ne.
Qed.

(** C10: a login that does not answer 200 (a field missing: 400; no
    account for the email or a password that does not verify: 401; an
    error: 500) writes nothing to the session: the reply sets no cookie,
    and for every token the store returns the same session as before the
    request, with the same userId and email; the [users] table is as it
    was. *)
Theorem failed_login_keeps_session now w ck b rep :
  let served := serve now w {| cookie := ck; target := PostLogin b |} in
  served.2 = Some rep → status (answer rep) ≠ 200 →
  set_cookie rep = None ∧ users served.1 = users w ∧
  ∀ token,
    store_get now served.1 token = store_get now w token ∧
    sess <$> sessions served.1 !! token = sess <$> sessions w !! token.
Proof.
  intros served. subst served.
  destruct (session_load_spec now w ck)
    as (w1 & st & ld & Hload & Hs & Hu & _ & Hsess & Hld).
  destruct (run_login_answers now b (w1, st)) as [resp Hresp].
  pose proof (run_login_failed now b (w1, st) resp Hresp) as Hsame.
  destruct (run now (login b) (w1, st)) as [[out [w2 st2]] log] eqn:Hrun.
  cbn in Hresp, Hsame. subst out.
  rewrite (serve_answered now w {| cookie := ck; target := PostLogin b |}
             _ _ _ _ _ _ _ Hload Hrun).
  cbn [fst snd]. intros [= <-]. cbn [answer set_cookie]. intros Hfail.
  specialize (Hsame Hfail) as [= -> ->].
  rewrite session_commit_unchanged by done. cbn [fst snd].
  split; [done |]. destruct ld as [d|].
  - destruct Hld as (_ & Hget & ->). split; [done |].
    by apply store_touch_get with d.
  - split; [done |]. intros token. unfold store_get. by rewrite Hsess.
Qed.

(** *** What each route does, case by case *)

Lemma truthy_pg_text (v : jsval) : truthy v = true → ∃ e, pg_text v = Some e.
Proof. destruct v; cbn; try done; by eexists. Qed.

Lemma head_filter_email w e :
  head (filter (λ u, u_email u = e) (users w)) = None → ¬ registered w e.
Proof.
  unfold registered. induction (users w) as [|u us IH]; [by intros _ ?%elem_of_nil |].
  destruct (decide (u_email u = e)) as [Heq | Hne].
  - by rewrite filter_cons_True.
  - rewrite filter_cons_False by done. intros Hnone.
    rewrite fmap_cons, not_elem_of_cons. split; [congruence | auto].
Qed.

Lemma run_signup_cases now b w st d :
  session st = Some d →
  ∃ resp w' st' log,
    run now (signup b) (w, st) = (inr resp, (w', st'), log) ∧
    sessions w' = sessions w ∧
    ((resp = bad_request ∧ w' = w ∧ st' = st ∧
      (truthy (b_email b) = false ∨ truthy (b_password b) = false))
     ∨ (resp = conflict ∧ w' = w ∧ st' = st ∧
        truthy (b_email b) = true ∧ truthy (b_password b) = true ∧
        head (select_user_by_email w (b_email b)) ≠ None)
     ∨ (resp = server_error ∧ users w' = users w ∧ st' = st ∧
        truthy (b_email b) = true ∧ truthy (b_password b) = true)
     ∨ (∃ t p,
          resp = res_json (AuthBody "Account created" (text_of t)) ∧
          pg_text (b_email b) = Some (text_of t) ∧ b_password b = JStr p ∧
          truthy (b_email b) = true ∧ p ≠ "" ∧
          ¬ registered w (text_of t) ∧ index_fits (text_of t) = true ∧
          users w' = (users w ++ [new_account now w t p])%list ∧
          users_id_seq w' = S (users_id_seq w) ∧
          draws w' = S (draws w) ∧
          st' = {| sid := sid st;
                   session :=
                     Some {| userId := Some (S (users_id_seq w));
                             s_email := Some (text_of t) |} |})).
Proof.
  intros Hs. destruct st as [i s]; cbn in Hs; subst s.
  destruct b as [email password]. unfold signup, findUserByEmail.
  cbn -[query_user_by_email insert_user].
  destruct (truthy email) eqn:He; cbn -[query_user_by_email insert_user];
    [|eexists _, _, _, _; split; [done |]; split; [done |]; left; auto].
  destruct (truthy password) eqn:Hp; cbn -[query_user_by_email insert_user];
    [|eexists _, _, _, _; split; [done |]; split; [done |]; left; auto].
  unfold query_user_by_email.
  destruct (refused_text email) eqn:Hok; cbn -[select_user_by_email insert_user].
  { eexists _, _, _, _. split; [done |]. split; [done |].
    right; right; left. by repeat split. }
  destruct (head (select_user_by_email w email)) as [u|] eqn:Hsel;
    cbn -[select_user_by_email insert_user].
  { eexists _, _, _, _. split; [done |]. split; [done |].
    right; left. by repeat split. }
  destruct (truthy_pg_text email He) as [e Htext].
  assert (¬ registered w e) as Hnew.
  { apply head_filter_email. unfold select_user_by_email in Hsel.
    by rewrite Htext in Hsel. }
  assert (holds_nul e = false) as Hnul.
  { unfold refused_text in Hok. by rewrite Htext in Hok. }
  destruct (pg_value_accepted e Hnul) as (t & Hval & <-).
  destruct password as [| | pb | pn | p | pt]; cbn -[insert_user];
    try (eexists _, _, _, _; split; [done |]; split; [done |];
         right; right; left; by repeat split).
  unfold insert_user. cbn. rewrite Htext, Hval.
  rewrite bool_decide_eq_false_2 by done.
  destruct (index_fits (text_of t)) eqn:Hfits; cbn.
  - eexists _, _, _, _. split; [done |]. split; [done |].
    right; right; right. exists t, p. repeat split; try done.
    intros ->. done.
  - eexists _, _, _, _. split; [done |]. split; [done |].
    right; right; left. by repeat split.
Qed.

Lemma run_login_cases now b w st d :
  session st = Some d →
  ∃ resp st' log,
    run now (login b) (w, st) = (inr resp, (w, st'), log) ∧
    ((resp = bad_request ∧ st' = st ∧
      (truthy (b_email b) = false ∨ truthy (b_password b) = false))
     ∨ (resp = invalid_credentials ∧ st' = st ∧
        truthy (b_email b) = true ∧ truthy (b_password b) = true ∧
        ∀ u, head (select_user_by_email w (b_email b)) = Some u →
             bcrypt_compare (b_password b) (u_password_hash u) = inr false)
     ∨ (resp = server_error ∧ st' = st ∧
        truthy (b_email b) = true ∧ truthy (b_password b) = true)
     ∨ (∃ u,
          resp = res_json (AuthBody "Logged in" (u_email u)) ∧
          truthy (b_email b) = true ∧ truthy (b_password b) = true ∧
          head (select_user_by_email w (b_email b)) = Some u ∧
          bcrypt_compare (b_password b) (u_password_hash u) = inr true ∧
          st' = {| sid := sid st; session := Some (session_of u) |})).
Proof.
  intros Hs. destruct st as [i s]; cbn in Hs; subst s.
  destruct b as [email password]. unfold login, findUserByEmail.
  cbn -[query_user_by_email bcrypt_compare].
  destruct (truthy email) eqn:He; cbn -[query_user_by_email bcrypt_compare];
    [|eexists _, _, _; split; [done |]; left; auto].
  destruct (truthy password) eqn:Hp; cbn -[query_user_by_email bcrypt_compare];
    [|eexists _, _, _; split; [done |]; left; auto].
  unfold query_user_by_email.
  destruct (refused_text email) eqn:Hok; cbn -[select_user_by_email bcrypt_compare].
  { eexists _, _, _. split; [done |]. right; right; left. by repeat split. }
  destruct (head (select_user_by_email w email)) as [u|] eqn:Hsel;
    cbn -[select_user_by_email bcrypt_compare].
  2: { eexists _, _, _. split; [done |]. right; left. by repeat split. }
  destruct (bcrypt_compare password (u_password_hash u)) as [e | [|]] eqn:Hcmp;
    cbn.
  - eexists _, _, _. split; [done |]. right; right; left. by repeat split.
  - eexists _, _, _. split; [done |]. right; right; right. by exists u.
  - eexists _, _, _. split; [done |]. right; left.
    repeat split; try done. by intros ? [= <-].
Qed.

(** *** Two signups with one password *)

(** What a signup that answered 200 has done to [users]. *)
Lemma serve_signup_created now w ck b rep :
  let served := serve now w {| cookie := ck; target := PostSignup b |} in
  served.2 = Some rep → status (answer rep) = 200 →
  ∃ w1 t p,
    users w1 = users w ∧ users_id_seq w1 = users_id_seq w ∧
    (draws w ≤ draws w1)%nat ∧
    pg_text (b_email b) = Some (text_of t) ∧ b_password b = JStr p ∧
    truthy (b_email b) = true ∧ p ≠ "" ∧ ¬ registered w (text_of t) ∧
    answer rep = res_json (AuthBody "Account created" (text_of t)) ∧
    users served.1 = (users w ++ [new_account now w1 t p])%list ∧
    users_id_seq served.1 = S (users_id_seq w) ∧
    draws served.1 = S (draws w1).
Proof.
  intros served. subst served.
  destruct (session_load_spec now w ck)
    as (w1 & st & ld & Hload & Hs & Hu & Hseq & _ & Hld).
  destruct (run_signup_cases now b w1 st _ Hs)
    as (resp & w' & st' & log & Hrun & _ & Hcases).
  rewrite (serve_answered now w {| cookie := ck; target := PostSignup b |}
             _ _ _ _ _ _ _ Hload Hrun).
  cbn [fst snd]. intros [= <-]. cbn [answer].
  destruct (session_commit_db now ld w' st') as (-> & -> & ->).
  destruct Hcases as [(-> & _) | [(-> & _) | [(-> & _) | Hok]]];
    [done | done | done |].
  destruct Hok as (t & p & -> & Htext & Hpw & He & Hp & Hnew & _ & -> & -> & -> & _).
  intros _. exists w1, t, p. unfold registered in *. rewrite Hu, Hseq in *.
  repeat split; try done.
  destruct ld; [by destruct Hld as (_ & _ & ->) | destruct Hld; lia].
Qed.

(** C9: two signups with the same plaintext password that both create an
    account store two different digests, the random generator never
    repeating a salt; and the password verifies against the digest of each
    of the two accounts. *)
Theorem same_password_different_digests now w ck now' ck' (e e' p : string) c c' :
  never_repeats →
  let first :=
    serve now w {| cookie := ck;
                   target := PostSignup {| b_email := JStr e;
                                           b_password := JStr p |} |} in
  let second :=
    serve now' first.1 {| cookie := ck';
                          target := PostSignup {| b_email := JStr e';
                                                  b_password := JStr p |} |} in
  first.2 = Some {| answer := res_json (AuthBody "Account created" e);
                    set_cookie := c |} →
  second.2 = Some {| answer := res_json (AuthBody "Account created" e');
                     set_cookie := c' |} →
  ∃ u u',
    head (select_user_by_email second.1 (JStr e)) = Some u ∧
    head (select_user_by_email second.1 (JStr e')) = Some u' ∧
    u_password_hash u ≠ u_password_hash u' ∧
    bcrypt_compare (JStr p) (u_password_hash u) = inr true ∧
    bcrypt_compare (JStr p) (u_password_hash u') = inr true.
Proof.
  intros Hfresh first second Hfirst Hsecond.
  destruct (serve_signup_created now w ck _ _ Hfirst eq_refl)
    as (wa & t & q & Hua & _ & Hda & [= ->] & [= <-] & _ & _ & Hnew & _
        & Hu1 & _ & Hd1).
  fold first in Hu1, Hd1.
  destruct (serve_signup_created now' first.1 ck' _ _ Hsecond eq_refl)
    as (wb & t' & q' & Hub & _ & Hdb & [= ->] & [= <-] & _ & _ & Hnew'
        & _ & Hu2 & _ & _).
  fold second in Hu2.
  assert (text_of t ≠ text_of t') as Hne.
  { intros Heq. apply Hnew'. unfold registered.
    rewrite Hu1, fmap_app, elem_of_app. right. cbn. rewrite <- Heq. left. }
  assert (¬ registered w (text_of t')) as Hnew0.
  { intros Hin. apply Hnew'. unfold registered in *.
    rewrite Hu1, fmap_app, elem_of_app. by left. }
  exists (new_account now wa t p), (new_account now' wb t' p).
  split; [|split; [|split; [|split]]].
  - unfold select_user_by_email. cbn. rewrite Hu2, Hu1, !filter_app.
    rewrite (filter_email_unregistered _ _ Hnew).
    rewrite filter_cons_True by done.
    by rewrite (filter_cons_False _ _ [])
      by (intros Heq; apply Hne; symmetry; exact Heq).
  - unfold select_user_by_email. cbn. rewrite Hu2, Hu1, !filter_app.
    rewrite (filter_email_unregistered _ _ Hnew0).
    rewrite filter_cons_False by exact Hne.
    by rewrite filter_cons_True.
  - cbn. intros [= Hsalt _]. apply Hfresh in Hsalt. lia.
  - cbn. by rewrite String.eqb_refl.
  - cbn. by rewrite String.eqb_refl.
Qed.

(** *** Validation comes first *)

Lemma serve_bad_request now w ck (r : route) :
  handler r = Ret bad_request →
  (serve now w {| cookie := ck; target := r |}).2 =
    Some {| answer := bad_request; set_cookie := None |}.
Proof.
  intros Hr.
  destruct (session_load_spec now w ck) as (w1 & st & ld & Hload & Hs & _).
  assert (run now (handler r) (w1, st) = (inr bad_request, (w1, st), [])) as Hrun
    by (by rewrite Hr).
  rewrite (serve_answered now w {| cookie := ck; target := r |}
             _ _ _ _ _ _ _ Hload Hrun).
  by rewrite session_commit_unchanged.
Qed.

(** C8: when the email or the password of the request is empty or missing,
    both the signup route and the login route answer 400 ("Email and
    password required") without having called any service: the log of the
    run is empty (no query on the credential store, no call of the hasher,
    nothing done to the session) and the database and the request's session
    are as they were; 400 is what the client gets, with no cookie set. *)
Theorem validation_precedes_every_service now b w st ck :
  empty_or_missing (b_email b) ∨ empty_or_missing (b_password b) →
  run now (signup b) (w, st) = (inr bad_request, (w, st), []) ∧
  run now (login b) (w, st) = (inr bad_request, (w, st), []) ∧
  (serve now w {| cookie := ck; target := PostSignup b |}).2 =
    Some {| answer := bad_request; set_cookie := None |} ∧
  (serve now w {| cookie := ck; target := PostLogin b |}).2 =
    Some {| answer := bad_request; set_cookie := None |}.
Proof.
  intros H.
  assert (truthy (b_email b) = false ∨ truthy (b_password b) = false) as Hf.
  { destruct H as [H | H]; [left | right]; by apply empty_or_missing_falsy. }
  rewrite signup_falsy, login_falsy by done.
  repeat split; apply serve_bad_request; cbn;
    [by apply signup_falsy | by apply login_falsy].
Qed.

(** *** Two signups in flight *)

Lemma signup_race now w (e p : string) i j :
  e ≠ "" → p ≠ "" → ¬ registered w e →
  holds_nul e = false → index_fits e = true →
  let b := {| b_email := JStr e; b_password := JStr p |} in
  let '(_, first, second) :=
    interleave now race_schedule w (new_thread (signup b) i)
               (new_thread (signup b) j) in
  code first = Ret (res_json (AuthBody "Account created" e)) ∧
  code second = Ret server_error.
Proof.
  intros He Hp Hnew Hnul Hfits b. subst b.
  destruct (pg_value_accepted e Hnul) as (t & Hval & Ht).
  unfold race_schedule, new_thread, signup, findUserByEmail.
  cbn -[truthy query_user_by_email insert_user].
  rewrite (truthy_string e He), (truthy_string p Hp).
  cbn -[query_user_by_email insert_user].
  rewrite !(query_accepted w (JStr e)) by done.
  unfold select_user_by_email. cbn -[insert_user].
  rewrite (filter_email_unregistered _ _ Hnew). cbn -[insert_user].
  unfold insert_user. cbn -[pg_value]. rewrite Hval.
  rewrite bool_decide_eq_false_2 by done. rewrite Hfits. cbn.
  rewrite bool_decide_eq_true_2; [done |].
  rewrite fmap_app. cbn. apply elem_of_app. right. unfold u_email. cbn.
  rewrite Ht. left.
Qed.

(** C3: two signups for the same new email, both past the lookup before
    either inserts: the first insert succeeds and its request answers 200;
    the second insert is refused by the uniqueness constraint on
    [users.email], and its request answers 500 ("Server error"), not the
    409 ("User already exists") of the lookup; one account is created. *)
Theorem signup_race_answers_500 :
  let '(w, first, second) :=
    interleave (P := sample_platform) 1000 race_schedule empty_world
               (new_thread (signup alice) 100) (new_thread (signup alice) 101) in
  code first = Ret (res_json (AuthBody "Account created" "a@x.com")) ∧
  code second = Ret server_error ∧
  code second ≠ Ret conflict ∧
  u_email <$> users w = ["a@x.com"].
Proof. vm_compute. by repeat split. Qed.

End Properties.

(** ** The theorems at work on the sample databases *)

Lemma sample_never_repeats : never_repeats (H := sample_platform).
Proof. intros i j Heq. cbn in Heq. lia. Qed.

Lemma alice_world_users : users alice_world = [alice_row].
Proof. reflexivity. Qed.

Lemma alice_world_session : sessions alice_world !! 100 = Some alice_session.
Proof. vm_compute. reflexivity. Qed.



(** C2: the two causes of a failed login are told apart by a password
    that is not a string.  With the JSON number 123 as password, bcrypt
    rejects the data at line 96 when the email has an account and the
    catch of line 105 answers 500 ("Server error"), while line 94 answers
    401 ("Invalid credentials") when the email has none. *)
Theorem login_failure_causes_told_apart :
  (serve (P := sample_platform) 2000 alice_world
         {| cookie := None;
            target := PostLogin {| b_email := JStr "nobody@x.com";
                                   b_password := JNum "123" |} |}).2 =
    Some {| answer := invalid_credentials; set_cookie := None |} ∧
  (serve (P := sample_platform) 2000 alice_world
         {| cookie := None;
            target := PostLogin {| b_email := JStr "a@x.com";
                                   b_password := JNum "123" |} |}).2 =
    Some {| answer := server_error; set_cookie := None |} ∧
  registered alice_world "a@x.com" ∧ ¬ registered alice_world "nobody@x.com".
Proof.
  split; [by vm_compute |]. split; [by vm_compute |].
  unfold registered. cbn. split; [left |].
  intros Hin. apply list_elem_of_singleton in Hin. discriminate.
Qed.

Lemma signup_registered_conflicts_witness :
  let after :=
    serve (P := sample_platform) 2000 alice_world
          {| cookie := None; target := PostSignup alice |} in
  after.2 = Some {| answer := conflict; set_cookie := None |} ∧
  users after.1 = users alice_world ∧
  users_id_seq after.1 = users_id_seq alice_world.
Proof.
  apply (signup_registered_conflicts (P := sample_platform)
           2000 alice_world None "a@x.com" (JStr "pw1"));
    [discriminate | | reflexivity].
  unfold registered. rewrite alice_world_users. cbn. left.
Defined.

Lemma destroyed_token_never_authenticates_witness :
  let logged_out :=
    serve (P := sample_platform) 2000 alice_world
          {| cookie := Some 100; target := PostLogout |} in
  let later :=
    serve_all (P := sample_platform) logged_out.1
      [(3000%Z, {| cookie := None; target := PostLogin alice |});
       (4000%Z, {| cookie := Some 100; target := PostSignup bob |})] in
  logged_out.2 =
    Some {| answer := res_json SuccessBody; set_cookie := None |} ∧
  sessions logged_out.1 !! 100 = None ∧
  (serve (P := sample_platform) 5000 later
         {| cookie := Some 100; target := GetProfile |}).2 =
    Some {| answer := not_authenticated; set_cookie := None |} ∧
  (serve (P := sample_platform) 5000 later
         {| cookie := Some 100; target := PostLogout |}).2 =
    Some {| answer := res_json SuccessBody; set_cookie := None |}.
Proof.
  apply (destroyed_token_never_authenticates (P := sample_platform)
           2000 alice_world 100 (sess alice_session)).
  - apply sample_never_repeats.
  - exists 0. split; [vm_compute; lia | reflexivity].
  - vm_compute. reflexivity.
Defined.

Lemma expired_session_is_absent_witness :
  let no_cookie :=
    serve (P := sample_platform) 90000000 alice_world
          {| cookie := None; target := GetProfile |} in
  serve (P := sample_platform) 90000000 alice_world
        {| cookie := Some 100; target := GetProfile |} = no_cookie ∧
  serve (P := sample_platform) 90000000 alice_world
        {| cookie := Some 7; target := GetProfile |} = no_cookie ∧
  no_cookie.2 = Some {| answer := not_authenticated; set_cookie := None |} ∧
  ∃ d, sessions alice_world !! 100
       = Some {| sess := d; expire := (1000 + 86400000)%Z |}.
Proof.
  destruct (expired_session_is_absent (P := sample_platform)
              90000000 alice_world 100 alice_session)
    as (Hsame & Hunknown & Hreply & Httl).
  - apply alice_world_session.
  - cbn. lia.
  - split; [exact Hsame |]. split; [by apply Hunknown |].
    split; [exact Hreply |].
    exact (Httl 1000%Z empty_world
                {| cookie := None; target := PostSignup alice |}
                {| answer := res_json (AuthBody "Account created" "a@x.com");
                   set_cookie := Some 100 |}
                100 eq_refl eq_refl).
Defined.

Lemma profile_of_valid_session_witness :
  (serve (P := sample_platform) 2000 alice_world
         {| cookie := Some 100; target := GetProfile |}).2 =
    Some {| answer :=
              {| status := 200;
                 json := ProfileBody [("id", CInt 1); ("email", CText "a@x.com");
                                      ("created_at", CTime 1000)] |};
            set_cookie := None |} ∧
  1 = 1 ∧
  ¬ mentions_digest [("id", CInt 1); ("email", CText "a@x.com");
                     ("created_at", CTime 1000)].
Proof.
  apply (profile_of_valid_session (P := sample_platform)
           2000 alice_world 100 (sess alice_session) 1);
    [vm_compute; reflexivity | reflexivity | discriminate].
Defined.

Lemma validation_precedes_every_service_witness :
  let b := {| b_email := JStr "a@x.com"; b_password := JStr "" |} in
  let st := {| sid := 100; session := Some (sess alice_session) |} in
  run (P := sample_platform) 2000 (signup b) (alice_world, st)
    = (inr bad_request, (alice_world, st), []) ∧
  run (P := sample_platform) 2000 (login b) (alice_world, st)
    = (inr bad_request, (alice_world, st), []) ∧
  (serve (P := sample_platform) 2000 alice_world
         {| cookie := Some 100; target := PostSignup b |}).2 =
    Some {| answer := bad_request; set_cookie := None |} ∧
  (serve (P := sample_platform) 2000 alice_world
         {| cookie := Some 100; target := PostLogin b |}).2 =
    Some {| answer := bad_request; set_cookie := None |}.
Proof.
  apply (validation_precedes_every_service (P := sample_platform)).
  right. right. right. reflexivity.
Defined.

Lemma same_password_different_digests_witness :
  let first :=
    serve (P := sample_platform) 1000 empty_world
          {| cookie := None; target := PostSignup alice |} in
  let second :=
    serve (P := sample_platform) 2000 first.1
          {| cookie := None; target := PostSignup bob |} in
  ∃ u u',
    head (select_user_by_email second.1 (JStr "a@x.com")) = Some u ∧
    head (select_user_by_email second.1 (JStr "b@x.com")) = Some u' ∧
    u_password_hash u ≠ u_password_hash u' ∧
    bcrypt_compare (P := sample_platform) (JStr "pw1") (u_password_hash u)
      = inr true ∧
    bcrypt_compare (P := sample_platform) (JStr "pw1") (u_password_hash u')
      = inr true.
Proof.
  apply (same_password_different_digests (P := sample_platform)
           1000 empty_world None 2000 None "a@x.com" "b@x.com" "pw1"
           (Some 100) (Some 102));
    [apply sample_never_repeats | vm_compute; reflexivity
    | vm_compute; reflexivity].
Defined.

Lemma failed_login_keeps_session_witness :
  let served :=
    serve (P := sample_platform) 2000 alice_world
          {| cookie := Some 100; target := PostLogin alice_wrong |} in
  None = (None : option nat) ∧ users served.1 = users alice_world ∧
  ∀ token,
    store_get 2000 served.1 token = store_get 2000 alice_world token ∧
    sess <$> sessions served.1 !! token = sess <$> sessions alice_world !! token.
Proof.
  apply (failed_login_keeps_session (P := sample_platform)
           2000 alice_world (Some 100) alice_wrong
           {| answer := invalid_credentials; set_cookie := None |});
    [vm_compute; reflexivity | discriminate].
Defined.

(** ** More on the routes: invariants, accounting, round trips *)

Section Accounts.

Context {P : platform}.

Implicit Types (w : world) (st : reqstate) (now : Z) (b : reqbody).

Lemma well_formed_same w w' : same_accounts w w' → well_formed w → well_formed w'.
Proof. unfold well_formed. by intros [-> ->]. Qed.

Lemma well_formed_seq w w' :
  users w' = users w → users_id_seq w' = S (users_id_seq w) →
  well_formed w → well_formed w'.
Proof.
  unfold well_formed. intros -> -> (He & Hi & Hb). repeat split; [done | done |].
  eapply Forall_impl; [exact Hb |]. cbn. intros u ?. lia.
Qed.

Lemma well_formed_insert w w' row :
  users w' = (users w ++ [row])%list →
  users_id_seq w' = S (users_id_seq w) →
  u_id row = S (users_id_seq w) →
  u_email row ∉ u_email <$> users w →
  well_formed w → well_formed w'.
Proof.
  unfold well_formed. intros -> -> Hid Hnew (He & Hi & Hb).
  rewrite Forall_forall in Hb.
  split; [|split].
  - rewrite fmap_app. apply NoDup_app. split; [done |]. split.
    + intros e Hin ->%list_elem_of_singleton. done.
    + apply NoDup_singleton.
  - rewrite fmap_app. apply NoDup_app. split; [done |]. split.
    + intros i Hin ->%list_elem_of_singleton.
      apply list_elem_of_fmap in Hin as (u & Hu & Hin).
      specialize (Hb u Hin). lia.
    + apply NoDup_singleton.
  - apply Forall_app. split.
    + apply Forall_forall. intros u Hin. specialize (Hb u Hin). lia.
    + apply Forall_singleton. lia.
Qed.

Lemma exec_well_formed {X} now (o : op X) s :
  well_formed s.1 → well_formed (exec now o s).2.1.
Proof.
  destruct s as [w st]. intros Hwf.
  destruct o; cbn; try done.
  - unfold insert_user. destruct (pg_text email) as [e|].
    + pose proof (pg_value_spec e) as Hspec.
      destruct (pg_value e) as [t|]; [|done].
      case_bool_decide; cbn; [by apply (well_formed_seq w) |].
      destruct (index_fits e); cbn; [|by apply (well_formed_seq w)].
      eapply (well_formed_insert w); try done. unfold u_email. cbn.
      by rewrite Hspec.
    + by apply (well_formed_seq w).
  - by destruct data.
  - by destruct (session st).
  - unfold set_session. by destruct (session st).
  - unfold set_session. by destruct (session st).
Qed.

Lemma run_well_formed {A} now (p : prog A) s :
  well_formed s.1 → well_formed (run now p s).1.2.1.
Proof.
  revert s. induction p as [a | e | X o k IH]; intros s Hwf; [done | done |].
  cbn. pose proof (exec_well_formed now o s Hwf) as Hex.
  destruct (exec now o s) as [x s1].
  specialize (IH x s1 Hex). by destruct (run now (k x) s1) as [[r s2] log].
Qed.

(** The database a request leaves has the accounts the route left. *)
Lemma serve_accounts now w req :
  ∃ w1 st ld,
    session_load now w (cookie req) = (w1, st, ld) ∧
    same_accounts (run now (handler (target req)) (w1, st)).1.2.1
                  (serve now w req).1.
Proof.
  destruct (session_load_spec now w (cookie req))
    as (w1 & st & ld & Hload & _).
  exists w1, st, ld. split; [done |]. unfold serve. rewrite Hload.
  destruct (run now (handler (target req)) (w1, st)) as [[out [w2 st2]] log].
  destruct out as [e | resp]; [done |].
  pose proof (session_commit_db now ld w2 st2) as (Hu & Hs & _).
  by destruct (session_commit now ld w2 st2).
Qed.

Lemma serve_well_formed now w req :
  well_formed w → well_formed (serve now w req).1.
Proof.
  intros Hwf.
  destruct (serve_accounts now w req) as (w1 & st & ld & Hload & Hsame).
  eapply well_formed_same; [exact Hsame |].
  apply (run_well_formed now _ (w1, st)). cbn.
  destruct (session_load_spec now w (cookie req))
    as (w1' & st' & ld' & Hload' & _ & Hu & Hs & _).
  rewrite Hload in Hload'. injection Hload' as <- <- <-.
  by apply (well_formed_same w).
Qed.

(** X1: whatever requests are served, one after the other, on a database
    whose emails are pairwise different and whose ids are pairwise
    different, positive and at most the last value of the sequence, the
    database they leave is of that kind too. *)
Theorem requests_keep_accounts_well_formed w (reqs : list (Z * request)) :
  well_formed w → well_formed (serve_all w reqs).
Proof.
  revert w. induction reqs as [|[now req] reqs IH]; intros w Hwf; [done |].
  cbn. by apply IH, serve_well_formed.
Qed.

Lemma step_well_formed now w (t : thread) :
  well_formed w → well_formed (step now w t).1.
Proof.
  intros Hwf. unfold step. destruct (code t) as [a | e | X o k]; [done | done |].
  pose proof (exec_well_formed now o (w, local t) Hwf) as Hex.
  by destruct (exec now o (w, local t)) as [x [w' st']].
Qed.

(** X2: two requests in flight, whatever the two routes and however their
    calls interleave, leave the emails pairwise different and the ids
    pairwise different: the insert of line 72 is refused when the email is
    there, whatever the lookup of line 68 saw. *)
Theorem interleaving_keeps_accounts_well_formed now schedule w (a b : thread) :
  well_formed w → well_formed (interleave now schedule w a b).1.1.
Proof.
  revert w a b. induction schedule as [|[|] rest IH]; intros w a b Hwf; [done | |].
  - cbn. pose proof (step_well_formed now w a Hwf) as Hstep.
    destruct (step now w a) as [w' a']. by apply IH.
  - cbn. pose proof (step_well_formed now w b Hwf) as Hstep.
    destruct (step now w b) as [w' b']. by apply IH.
Qed.

(** *** Accounting of the [users] table *)

Lemma select_same_users w w' email :
  users w' = users w →
  select_user_by_email w' email = select_user_by_email w email.
Proof. unfold select_user_by_email. by intros ->. Qed.

(** X3: a signup request either answers 200, and then its email was not
    registered, its password is a string, and [users] has gained exactly
    one row, at the end: the next id of the sequence, the text of the
    email as node-postgres sends it, a cost-10 digest of the password, the
    time of the request; or it answers something else, and then [users]
    is as it was. *)
Theorem signup_adds_one_account_or_none now w ck b :
  let served := serve now w {| cookie := ck; target := PostSignup b |} in
  ∃ rep,
    served.2 = Some rep ∧
    ((∃ e p salt row,
        answer rep = res_json (AuthBody "Account created" e) ∧
        pg_text (b_email b) = Some e ∧ b_password b = JStr p ∧
        ¬ registered w e ∧
        users served.1 = (users w ++ [row])%list ∧
        u_id row = S (users_id_seq w) ∧ u_email row = e ∧
        u_password_hash row =
          {| d_cost := 10; d_salt := salt; d_key := kdf 10 salt p |} ∧
        u_created_at row = now)
     ∨ (status (answer rep) ≠ 200 ∧ users served.1 = users w)).
Proof.
  intros served. subst served.
  destruct (session_load_spec now w ck)
    as (w1 & st & ld & Hload & Hs & Hu & Hseq & _).
  destruct (run_signup_cases now b w1 st _ Hs)
    as (resp & w' & st' & log & Hrun & _ & Hcases).
  rewrite (serve_answered now w {| cookie := ck; target := PostSignup b |}
             _ _ _ _ _ _ _ Hload Hrun).
  cbn [fst snd]. eexists. split; [done |]. cbn [answer].
  destruct (session_commit_db now ld w' st') as (-> & _ & _).
  destruct Hcases
    as [(-> & -> & _) | [(-> & -> & _) | [(-> & -> & _) | Hok]]];
    [by right | by right | by right |].
  destruct Hok as (t & p & -> & Htext & Hpw & _ & _ & Hnew & _ & -> & _).
  left. exists (text_of t), p, (random (draws w1)), (new_account now w1 t p).
  unfold registered in *. rewrite Hu in *. cbn. by rewrite Hseq.
Qed.

(** X4: a request for any route but signup leaves the [users] table and
    the sequence of its ids as they were. *)
Theorem only_signup_writes_users now w req :
  is_signup (target req) = false → same_accounts w (serve now w req).1.
Proof.
  intros Hroute.
  destruct (serve_accounts now w req) as (w1 & st & ld & Hload & Hsame).
  destruct (session_load_spec now w (cookie req))
    as (w1' & st' & ld' & Hload' & Hs & Hu & Hseq & _).
  rewrite Hload in Hload'. injection Hload' as <- <- <-.
  destruct Hsame as [Hu2 Hs2]. unfold same_accounts. rewrite Hu2, Hs2.
  destruct (target req) as [b | b | |]; [done | | |]; cbn [handler].
  - destruct (run_login_cases now b w1 st _ Hs) as (resp & st2 & log & -> & _).
    done.
  - rewrite (run_profile now w1 st _ Hs).
    destruct (falsy_id _); [done |]. by destruct (head _).
  - by rewrite run_logout.
Qed.

(** X5: a login request answers 200 only when both fields are non-empty,
    [users] has a row for the email, and [bcrypt.compare] resolved to true
    for the password and the digest of that row; the email of the answer
    is the email of that row. *)
Theorem login_only_with_verified_password now w ck b rep :
  (serve now w {| cookie := ck; target := PostLogin b |}).2 = Some rep →
  status (answer rep) = 200 →
  ∃ u,
    truthy (b_email b) = true ∧ truthy (b_password b) = true ∧
    head (select_user_by_email w (b_email b)) = Some u ∧
    bcrypt_compare (b_password b) (u_password_hash u) = inr true ∧
    answer rep = res_json (AuthBody "Logged in" (u_email u)).
Proof.
  destruct (session_load_spec now w ck)
    as (w1 & st & ld & Hload & Hs & Hu & _).
  destruct (run_login_cases now b w1 st _ Hs)
    as (resp & st' & log & Hrun & Hcases).
  rewrite (serve_answered now w {| cookie := ck; target := PostLogin b |}
             _ _ _ _ _ _ _ Hload Hrun).
  cbn [fst snd]. intros [= <-]. cbn [answer].
  destruct Hcases as [(-> & _) | [(-> & _) | [(-> & _) | Hok]]];
    [done | done | done |].
  destruct Hok as (u & -> & He & Hp & Hsel & Hcmp & _). intros _.
  exists u. rewrite <- (select_same_users w w1) by done. done.
Qed.

(** X6: a signup or a login answers 400 exactly when the email or the
    password is falsy in JavaScript: missing, [null], the empty string,
    the number 0 or [false]. *)
Theorem bad_request_iff_falsy now w ck b (r : route) :
  r = PostSignup b ∨ r = PostLogin b →
  ∃ rep,
    (serve now w {| cookie := ck; target := r |}).2 = Some rep ∧
    (status (answer rep) = 400 ↔
     truthy (b_email b) = false ∨ truthy (b_password b) = false).
Proof.
  intros Hr.
  destruct (session_load_spec now w ck)
    as (w1 & st & ld & Hload & Hs & _).
  destruct Hr as [-> | ->].
  - destruct (run_signup_cases now b w1 st _ Hs)
      as (resp & w' & st' & log & Hrun & _ & Hcases).
    rewrite (serve_answered now w {| cookie := ck; target := PostSignup b |}
               _ _ _ _ _ _ _ Hload Hrun).
    eexists. split; [done |]. cbn [answer].
    destruct Hcases
      as [(-> & _ & _ & Hf) | [(-> & _ & _ & He & Hp & _)
          | [(-> & _ & _ & He & Hp) | Hok]]].
    + done.
    + split; [done |]. intros [? | ?]; congruence.
    + split; [done |]. intros [? | ?]; congruence.
    + destruct Hok as (e & p & -> & _ & Hpw & He & Hp & _).
      split; [done |]. rewrite Hpw. intros [? | Hf]; [congruence |].
      cbn in Hf. destruct p; [done | discriminate].
  - destruct (run_login_cases now b w1 st _ Hs)
      as (resp & st' & log & Hrun & Hcases).
    rewrite (serve_answered now w {| cookie := ck; target := PostLogin b |}
               _ _ _ _ _ _ _ Hload Hrun).
    eexists. split; [done |]. cbn [answer].
    destruct Hcases
      as [(-> & _ & Hf) | [(-> & _ & He & Hp & _)
          | [(-> & _ & He & Hp) | (u & -> & He & Hp & _)]]].
    + done.
    + split; [done |]. intros [? | ?]; congruence.
    + split; [done |]. intros [? | ?]; congruence.
    + split; [done |]. intros [? | ?]; congruence.
Qed.

(** X7: every request is answered, and with a status of its route:
    signup 200, 400, 409 or 500; login 200, 400, 401 or 500; profile 200,
    401 or 404; logout 200. *)
Theorem every_request_answered now w req :
  ∃ rep,
    (serve now w req).2 = Some rep ∧
    status (answer rep) ∈ statuses (target req).
Proof.
  destruct (session_load_spec now w (cookie req))
    as (w1 & st & ld & Hload & Hs & _).
  destruct req as [ck [b | b | |]]; cbn [cookie target statuses] in *.
  - destruct (run_signup_cases now b w1 st _ Hs)
      as (resp & w' & st' & log & Hrun & _ & Hcases).
    rewrite (serve_answered now w {| cookie := ck; target := PostSignup b |}
               _ _ _ _ _ _ _ Hload Hrun).
    eexists. split; [done |]. cbn [answer].
    destruct Hcases as [(-> & _) | [(-> & _) | [(-> & _) | (e & p & -> & _)]]];
      cbn; set_solver.
  - destruct (run_login_cases now b w1 st _ Hs)
      as (resp & st' & log & Hrun & Hcases).
    rewrite (serve_answered now w {| cookie := ck; target := PostLogin b |}
               _ _ _ _ _ _ _ Hload Hrun).
    eexists. split; [done |]. cbn [answer].
    destruct Hcases as [(-> & _) | [(-> & _) | [(-> & _) | (u & -> & _)]]];
      cbn; set_solver.
  - pose proof (run_profile now w1 st _ Hs) as Hrun.
    destruct (falsy_id _); [|destruct (head _)];
      rewrite (serve_answered now w {| cookie := ck; target := GetProfile |}
                 _ _ _ _ _ _ _ Hload Hrun);
      (eexists; split; [done |]); cbn; set_solver.
  - rewrite serve_logout. eexists. split; [done |]. cbn. set_solver.
Qed.

(** *** Who gets a profile *)

Lemma account_by_id_unique w u :
  NoDup (u_id <$> users w) → u ∈ users w → account_by_id w (u_id u) = Some u.
Proof.
  unfold account_by_id. induction (users w) as [|u0 us IH]; [by intros _ ?%elem_of_nil |].
  rewrite fmap_cons, NoDup_cons. intros [Hnot Hnd] Hin.
  apply elem_of_cons in Hin as [-> | Hin]; [by rewrite filter_cons_True |].
  rewrite filter_cons_False; [by apply IH |].
  intros Heq. apply Hnot. rewrite Heq. apply list_elem_of_fmap. by exists u.
Qed.

Lemma account_by_id_fresh w i :
  Forall (λ u, (0 < u_id u ≤ users_id_seq w)%nat) (users w) →
  (users_id_seq w < i)%nat →
  filter (λ u, u_id u = i) (users w) = [].
Proof.
  intros Hb Hi. induction Hb as [|u us Hu _ IH]; [done |].
  rewrite filter_cons_False by lia. done.
Qed.

Lemma session_load_fresh now w ck :
  (∀ token, ck = Some token → store_get now w token = None) →
  session_load now w ck =
    ((take_random w).2,
     {| sid := random (draws w); session := Some empty_session |}, None).
Proof.
  intros Hnone. unfold session_load. destruct ck as [token|]; [|done].
  by rewrite (Hnone token).
Qed.

Lemma session_load_live now w token d :
  store_get now w token = Some d →
  session_load now w (Some token)
  = (w, {| sid := token; session := Some d |}, Some d).
Proof. intros Hget. unfold session_load. by rewrite Hget. Qed.

Lemma store_get_set now now' w token d :
  (now' ≤ now + maxAge)%Z →
  store_get now' (store_set now w token d) token = Some d.
Proof.
  intros Hle. unfold store_get, store_set. cbn.
  by rewrite lookup_insert_eq, bool_decide_eq_true_2.
Qed.

(** X8: a profile request answers 200 only when its cookie names a session
    the store returns, with a non-zero user id in it, and [users] has a
    row with that id; the answer is made of that row. *)
Theorem profile_needs_live_session now w ck rep :
  (serve now w {| cookie := ck; target := GetProfile |}).2 = Some rep →
  status (answer rep) = 200 →
  ∃ token d uid u,
    ck = Some token ∧ store_get now w token = Some d ∧
    userId d = Some uid ∧ uid ≠ 0 ∧ account_by_id w uid = Some u ∧
    answer rep = res_json (ProfileBody (profile_row u)).
Proof.
  destruct ck as [token|]; [|by rewrite serve_profile_fresh; [intros [= <-] |]].
  destruct (store_get now w token) as [d|] eqn:Hget.
  2: { rewrite serve_profile_fresh; [by intros [= <-] |]. by intros ? [= <-]. }
  rewrite (serve_profile_loaded now w token d Hget). intros [= <-]. cbn [answer].
  destruct (userId d) as [[|uid]|] eqn:Hid; cbn [falsy_id]; [done | | done].
  cbn [default from_option id].
  destruct (account_by_id w (S uid)) as [u|] eqn:Hacc; [|done].
  intros _. by exists token, d, (S uid), u.
Qed.

(** X9: on a database with well-formed accounts, a signup that answers
    200, from a client without a live session, sets a cookie; a profile
    request with that cookie, at any time up to 24 hours after the signup,
    answers 200 with the new account: the next id of the sequence, the
    email of the signup's answer, and the time of the signup as
    [created_at]. *)
Theorem signup_then_profile now w ck b rep now' :
  well_formed w →
  (∀ token, ck = Some token → store_get now w token = None) →
  (now' ≤ now + maxAge)%Z →
  let served := serve now w {| cookie := ck; target := PostSignup b |} in
  served.2 = Some rep → status (answer rep) = 200 →
  ∃ token e,
    answer rep = res_json (AuthBody "Account created" e) ∧
    set_cookie rep = Some token ∧
    (serve now' served.1 {| cookie := Some token; target := GetProfile |}).2 =
      Some {| answer :=
                res_json (ProfileBody [("id", CInt (S (users_id_seq w)));
                                       ("email", CText e);
                                       ("created_at", CTime now)]);
              set_cookie := None |}.
Proof.
  intros (_ & _ & Hb) Hfresh Hle served. subst served.
  pose proof (session_load_fresh now w ck Hfresh) as Hload.
  set (w1 := (take_random w).2) in *.
  set (st := {| sid := random (draws w); session := Some empty_session |}) in *.
  destruct (run_signup_cases now b w1 st _ eq_refl)
    as (resp & w' & st' & log & Hrun & Hsess & Hcases).
  rewrite (serve_answered now w {| cookie := ck; target := PostSignup b |}
             _ _ _ _ _ _ _ Hload Hrun).
  cbn [fst snd]. intros [= <-]. cbn [answer set_cookie].
  destruct Hcases as [(-> & _) | [(-> & _) | [(-> & _) | Hok]]];
    [done | done | done |].
  destruct Hok as (t & p & -> & _ & _ & _ & _ & _ & _ & Hu & _ & _ & ->).
  intros _. unfold session_commit.
  cbn [session sid default from_option].
  rewrite bool_decide_eq_false_2 by done. cbn [fst snd].
  exists (random (draws w)), (text_of t). split; [done |]. split; [done |].
  match goal with |- (serve now' ?w3 _).2 = _ => set (w3' := w3) end.
  assert (store_get now' w3' (random (draws w))
          = Some {| userId := Some (S (users_id_seq w));
                    s_email := Some (text_of t) |})
    as Hget by (by apply store_get_set).
  pose proof (serve_profile_loaded now' w3' _ _ Hget) as Hprof.
  cbn [falsy_id userId default from_option id] in Hprof.
  assert (account_by_id w3' (S (users_id_seq w))
          = Some (new_account now w1 t p)) as Hacc.
  { unfold account_by_id, w3'. cbn [users store_set]. rewrite Hu.
    cbn [users w1 take_random snd]. rewrite filter_app.
    rewrite (account_by_id_fresh w) by (done || lia).
    by rewrite filter_cons_True. }
  by rewrite Hacc in Hprof.
Qed.

(** X10: on a database with well-formed accounts, a login that verifies,
    from a client without a live session, sets a cookie; a profile request
    with that cookie, at any time up to 24 hours after the login, answers
    200 with the id, email and [created_at] of the account that logged
    in. *)
Theorem login_then_profile now w ck b u now' :
  well_formed w →
  truthy (b_email b) = true → truthy (b_password b) = true →
  head (select_user_by_email w (b_email b)) = Some u →
  bcrypt_compare (b_password b) (u_password_hash u) = inr true →
  (∀ token, ck = Some token → store_get now w token = None) →
  (now' ≤ now + maxAge)%Z →
  let served := serve now w {| cookie := ck; target := PostLogin b |} in
  ∃ token,
    served.2 =
      Some {| answer := res_json (AuthBody "Logged in" (u_email u));
              set_cookie := Some token |} ∧
    (serve now' served.1 {| cookie := Some token; target := GetProfile |}).2 =
      Some {| answer := res_json (ProfileBody (profile_row u));
              set_cookie := None |}.
Proof.
  intros (_ & Hids & Hb) He Hp Hsel Hcmp Hfresh Hle served.
  pose proof (session_load_fresh now w ck Hfresh) as Hload.
  set (w1 := (take_random w).2) in *.
  set (st := {| sid := random (draws w); session := Some empty_session |}) in *.
  assert (u ∈ users w) as Hin.
  { apply head_elem_of in Hsel. unfold select_user_by_email in Hsel.
    destruct (pg_text (b_email b)); [|by apply elem_of_nil in Hsel].
    by apply list_elem_of_filter in Hsel as [_ ?]. }
  assert (u_id u ≠ 0) as Hpos.
  { rewrite Forall_forall in Hb. specialize (Hb u Hin). lia. }
  destruct (run_login_checked now w1 st b u true He Hp Hsel Hcmp) as [log Hrun].
  cbn [session st] in Hrun.
  pose proof (serve_answered now w {| cookie := ck; target := PostLogin b |}
                _ _ _ _ _ _ _ Hload Hrun) as Hserve.
  unfold session_commit in Hserve. cbn [session sid default from_option] in Hserve.
  rewrite bool_decide_eq_false_2 in Hserve.
  2: { unfold empty_session. intros [= Hid _]. }
  cbn [fst snd] in Hserve.
  subst served. rewrite Hserve. cbn [fst snd].
  exists (random (draws w)). split; [reflexivity |].
  match goal with |- (serve now' ?w3 _).2 = _ => set (w3' := w3) end.
  assert (store_get now' w3' (random (draws w)) = Some (session_of u)) as Hget
    by (by apply store_get_set).
  pose proof (serve_profile_loaded now' w3' _ _ Hget) as Hprof.
  cbn [session_of userId default from_option id] in Hprof.
  assert (falsy_id (Some (u_id u)) = false) as Hf
    by (cbn; by destruct (u_id u)).
  rewrite Hf in Hprof.
  assert (account_by_id w3' (u_id u) = Some u) as Hacc
    by (by apply (account_by_id_unique w)).
  by rewrite Hacc in Hprof.
Qed.

(** *** Whose session a route touches *)

Lemma store_get_record now w token d :
  store_get now w token = Some d →
  ∃ r, sessions w !! token = Some r ∧ sess r = d ∧ (now ≤ expire r)%Z.
Proof.
  unfold store_get. destruct (sessions w !! token) as [r|]; [|done].
  case_bool_decide; [|done]. intros [= <-]. by exists r.
Qed.

(** X11: a logout whose cookie names a session the store returns removes
    the record of that token and no other, and answers 200; the accounts
    are as they were. *)
Theorem logout_removes_only_its_session now w token d :
  store_get now w token = Some d →
  let served := serve now w {| cookie := Some token; target := PostLogout |} in
  served.2 = Some {| answer := res_json SuccessBody; set_cookie := None |} ∧
  sessions served.1 !! token = None ∧
  (∀ other, other ≠ token → sessions served.1 !! other = sessions w !! other) ∧
  same_accounts w served.1.
Proof.
  intros Hget served. subst served.
  rewrite (serve_answered now w {| cookie := Some token; target := PostLogout |}
             _ _ _ _ _ _ _ (session_load_live now w token d Hget)
             (run_logout now w _)).
  cbn. split; [done |]. split; [apply lookup_delete_eq |].
  split; [|done]. intros other Hne. by rewrite lookup_delete_ne.
Qed.

(** X12: on a database whose tokens were all issued by a generator that
    never repeats, a logout without a cookie, or with a cookie the store
    does not return (unknown or expired), answers 200 and removes no
    record: an expired record stays in the table. *)
Theorem logout_without_session_removes_nothing now w ck :
  never_repeats → tokens_issued w →
  (∀ token, ck = Some token → store_get now w token = None) →
  let served := serve now w {| cookie := ck; target := PostLogout |} in
  served.2 = Some {| answer := res_json SuccessBody; set_cookie := None |} ∧
  sessions served.1 = sessions w.
Proof.
  intros Hfresh Hinv Hnone served. subst served.
  rewrite (serve_answered now w {| cookie := ck; target := PostLogout |}
             _ _ _ _ _ _ _ (session_load_fresh now w ck Hnone)
             (run_logout now _ _)).
  cbn. split; [done |]. apply delete_id.
  destruct (sessions w !! random (draws w)) as [r|] eqn:Hlook; [|done].
  destruct (Hinv (random (draws w))) as (i & Hi & Heq); [by rewrite Hlook |].
  apply Hfresh in Heq. lia.
Qed.

Lemma session_commit_keeps now ld w st token :
  is_Some (sessions w !! token) →
  is_Some (sessions (session_commit now ld w st).1 !! token).
Proof.
  intros Hsome. unfold session_commit. destruct (session st); [|done].
  case_bool_decide.
  - destruct ld; [|done]. cbn. apply lookup_alter_is_Some. done.
  - cbn. apply lookup_insert_is_Some.
    destruct (decide (sid st = token)); [by left | by right].
Qed.

Lemma run_sessions_kept now (r : route) w st d :
  is_logout r = false → session st = Some d →
  sessions (run now (handler r) (w, st)).1.2.1 = sessions w.
Proof.
  intros Hr Hs. destruct r as [b | b | |]; [| | |done]; cbn [handler].
  - destruct (run_signup_cases now b w st _ Hs)
      as (resp & w' & st' & log & -> & Hsess & _). done.
  - destruct (run_login_cases now b w st _ Hs) as (resp & st' & log & -> & _).
    done.
  - rewrite (run_profile now w st _ Hs).
    destruct (falsy_id _); [done |]. by destruct (head _).
Qed.

(** X13: signup, login and profile never remove a session record: every
    token that has a record before the request has one after it.  Only
    logout deletes. *)
Theorem only_logout_deletes_sessions now w req token :
  is_logout (target req) = false →
  is_Some (sessions w !! token) →
  is_Some (sessions (serve now w req).1 !! token).
Proof.
  intros Hr Hsome.
  destruct (session_load_spec now w (cookie req))
    as (w1 & st & ld & Hload & Hs & _ & _ & Hsess & _).
  pose proof (run_sessions_kept now (target req) w1 st _ Hr Hs) as Hkept.
  unfold serve. rewrite Hload.
  destruct (run now (handler (target req)) (w1, st)) as [[out [w2 st2]] log].
  cbn in Hkept.
  assert (is_Some (sessions w2 !! token)) as Hsome2 by (by rewrite Hkept, Hsess).
  destruct out as [e | resp]; [done |].
  pose proof (session_commit_keeps now ld w2 st2 token Hsome2) as Hc.
  by destruct (session_commit now ld w2 st2).
Qed.

(** X14: a login that verifies, sent with the cookie of a live session,
    generates no new session id: the record under the same token now holds
    the id and email of the account that logged in, expiring 24 hours
    after the request; no random value is taken and every other record is
    as it was.  The cookie is sent again exactly when the session data
    changed. *)
Theorem login_over_live_session_keeps_token now w token d b u :
  store_get now w token = Some d →
  truthy (b_email b) = true → truthy (b_password b) = true →
  head (select_user_by_email w (b_email b)) = Some u →
  bcrypt_compare (b_password b) (u_password_hash u) = inr true →
  let served := serve now w {| cookie := Some token; target := PostLogin b |} in
  served.2 =
    Some {| answer := res_json (AuthBody "Logged in" (u_email u));
            set_cookie := if decide (d = session_of u) then None
                          else Some token |} ∧
  sessions served.1 !! token =
    Some {| sess := session_of u; expire := (now + maxAge)%Z |} ∧
  draws served.1 = draws w ∧
  (∀ other, other ≠ token → sessions served.1 !! other = sessions w !! other).
Proof.
  intros Hget He Hp Hsel Hcmp served. subst served.
  destruct (run_login_checked now w {| sid := token; session := Some d |}
              b u true He Hp Hsel Hcmp) as [log Hrun].
  cbn [session sid] in Hrun.
  rewrite (serve_answered now w {| cookie := Some token; target := PostLogin b |}
             _ _ _ _ _ _ _ (session_load_live now w token d Hget) Hrun).
  unfold session_commit. cbn [session sid default from_option].
  fold (session_of u).
  destruct (store_get_record now w token d Hget) as (r & Hlook & Hr & _).
  destruct (decide (d = session_of u)) as [Heq | Hne].
  - rewrite bool_decide_eq_true_2 by done. cbn.
    split; [done |]. rewrite lookup_alter_eq, Hlook. cbn.
    split; [by rewrite Hr, Heq |]. split; [done |].
    intros other Hother. by rewrite lookup_alter_ne.
  - rewrite bool_decide_eq_false_2 by done. cbn.
    split; [done |]. rewrite lookup_insert_eq.
    split; [done |]. split; [done |].
    intros other Hother. by rewrite lookup_insert_ne.
Qed.

(** *** Signing up twice *)

(** X16: after a signup that answered 200, a second signup with the same
    email answers 409 ("User already exists") whatever non-empty password
    it carries, and adds no row. *)
Theorem signup_twice_conflicts now w ck b rep now' ck' (password' : jsval) :
  let first := serve now w {| cookie := ck; target := PostSignup b |} in
  let second :=
    serve now' first.1
          {| cookie := ck';
             target := PostSignup {| b_email := b_email b;
                                     b_password := password' |} |} in
  first.2 = Some rep → status (answer rep) = 200 →
  truthy password' = true →
  second.2 = Some {| answer := conflict; set_cookie := None |} ∧
  users second.1 = users first.1.
Proof.
  intros first second Hfirst Hok Hp'.
  destruct (serve_signup_created now w ck b rep Hfirst Hok)
    as (wa & t & p & _ & _ & _ & Htext & _ & He & _ & _ & _ & Hu1 & _).
  fold first in Hu1.
  set (b' := {| b_email := b_email b; b_password := password' |}) in *.
  destruct (session_load_spec now' first.1 ck')
    as (w1 & st & ld & Hload & Hs & Hus & _).
  assert (head (select_user_by_email w1 (b_email b')) ≠ None) as Hfound.
  { rewrite (select_same_users first.1 w1) by done.
    unfold select_user_by_email. cbn [b' b_email]. rewrite Htext, Hu1.
    rewrite filter_app, (filter_cons_True _ _ []) by done.
    by destruct (filter _ (users w)). }
  pose proof (serve_answered now' first.1 {| cookie := ck'; target := PostSignup b' |}
                _ _ _ _ _ _ _ Hload
                (run_signup_registered now' w1 st b' He Hp' Hfound))
    as Hserve.
  subst second. rewrite Hserve. cbn [fst snd].
  rewrite session_commit_unchanged by done. cbn [fst snd].
  split; [done |]. by destruct ld.
Qed.

End Accounts.

(** ** The further theorems at work on the sample databases *)

Lemma empty_world_well_formed : well_formed empty_world.
Proof. repeat split; cbn; constructor. Qed.

Lemma alice_world_well_formed : well_formed alice_world.
Proof.
  unfold well_formed. rewrite alice_world_users. cbn.
  repeat split; [apply NoDup_singleton | apply NoDup_singleton |].
  apply Forall_singleton. vm_compute. lia.
Qed.

Lemma requests_keep_accounts_well_formed_witness :
  well_formed
    (serve_all (P := sample_platform) alice_world
       [(2000%Z, {| cookie := Some 100; target := PostSignup bob |});
        (3000%Z, {| cookie := None; target := PostSignup alice |});
        (4000%Z, {| cookie := Some 100; target := PostLogout |})]).
Proof.
  apply (requests_keep_accounts_well_formed (P := sample_platform)).
  apply alice_world_well_formed.
Defined.

Lemma alice_world_tokens_issued : tokens_issued (H := sample_platform) alice_world.
Proof.
  apply (reachable_tokens_issued (P := sample_platform)
           [(1000%Z, {| cookie := None; target := PostSignup alice |})]).
Qed.

Lemma alice_world_live : store_get 2000 alice_world 100 = Some (sess alice_session).
Proof. vm_compute. reflexivity. Qed.

Lemma interleaving_keeps_accounts_well_formed_witness :
  well_formed
    (interleave (P := sample_platform) 1000 race_schedule empty_world
                (new_thread (signup alice) 100)
                (new_thread (signup alice) 101)).1.1.
Proof.
  apply (interleaving_keeps_accounts_well_formed (P := sample_platform)).
  apply empty_world_well_formed.
Defined.

Lemma only_signup_writes_users_witness :
  same_accounts alice_world
    (serve (P := sample_platform) 2000 alice_world
           {| cookie := None; target := PostLogin alice |}).1.
Proof.
  apply (only_signup_writes_users (P := sample_platform)). reflexivity.
Defined.

Lemma login_only_with_verified_password_witness :
  ∃ u,
    truthy (b_email alice) = true ∧ truthy (b_password alice) = true ∧
    head (select_user_by_email alice_world (b_email alice)) = Some u ∧
    bcrypt_compare (P := sample_platform) (b_password alice) (u_password_hash u)
      = inr true ∧
    res_json (AuthBody "Logged in" "a@x.com")
      = res_json (AuthBody "Logged in" (u_email u)).
Proof.
  apply (login_only_with_verified_password (P := sample_platform)
           2000 alice_world None alice
           {| answer := res_json (AuthBody "Logged in" "a@x.com");
              set_cookie := Some 102 |});
    [vm_compute; reflexivity | reflexivity].
Defined.

Lemma bad_request_iff_falsy_witness :
  let b := {| b_email := JNum "0"; b_password := JStr "pw1" |} in
  ∃ rep,
    (serve (P := sample_platform) 2000 alice_world
           {| cookie := None; target := PostLogin b |}).2 = Some rep ∧
    (status (answer rep) = 400 ↔
     truthy (b_email b) = false ∨ truthy (b_password b) = false).
Proof.
  apply (bad_request_iff_falsy (P := sample_platform)). right. reflexivity.
Defined.

Lemma profile_needs_live_session_witness :
  ∃ token d uid u,
    Some 100 = Some token ∧ store_get 2000 alice_world token = Some d ∧
    userId d = Some uid ∧ uid ≠ 0 ∧ account_by_id alice_world uid = Some u ∧
    res_json (ProfileBody (profile_row alice_row))
      = res_json (ProfileBody (profile_row u)).
Proof.
  apply (profile_needs_live_session (P := sample_platform)
           2000 alice_world (Some 100)
           {| answer := res_json (ProfileBody (profile_row alice_row));
              set_cookie := None |});
    [vm_compute; reflexivity | reflexivity].
Defined.

Lemma signup_then_profile_witness :
  ∃ token e,
    res_json (AuthBody "Account created" "a@x.com")
      = res_json (AuthBody "Account created" e) ∧
    Some 100 = Some token ∧
    (serve (P := sample_platform) 2000 alice_world
           {| cookie := Some token; target := GetProfile |}).2 =
      Some {| answer :=
                res_json (ProfileBody [("id", CInt 1); ("email", CText e);
                                       ("created_at", CTime 1000)]);
              set_cookie := None |}.
Proof.
  apply (signup_then_profile (P := sample_platform)
           1000 empty_world None alice
           {| answer := res_json (AuthBody "Account created" "a@x.com");
              set_cookie := Some 100 |} 2000);
    [apply empty_world_well_formed | discriminate | vm_compute; discriminate
    | vm_compute; reflexivity | reflexivity].
Defined.

Lemma login_then_profile_witness :
  let served :=
    serve (P := sample_platform) 2000 alice_world
          {| cookie := None; target := PostLogin alice |} in
  ∃ token,
    served.2 =
      Some {| answer := res_json (AuthBody "Logged in" "a@x.com");
              set_cookie := Some token |} ∧
    (serve (P := sample_platform) 3000 served.1
           {| cookie := Some token; target := GetProfile |}).2 =
      Some {| answer := res_json (ProfileBody (profile_row alice_row));
              set_cookie := None |}.
Proof.
  apply (login_then_profile (P := sample_platform)
           2000 alice_world None alice alice_row 3000);
    [apply alice_world_well_formed | reflexivity | reflexivity | reflexivity
    | reflexivity | discriminate | vm_compute; discriminate].
Defined.

Lemma logout_removes_only_its_session_witness :
  let served :=
    serve (P := sample_platform) 2000 alice_world
          {| cookie := Some 100; target := PostLogout |} in
  served.2 = Some {| answer := res_json SuccessBody; set_cookie := None |} ∧
  sessions served.1 !! 100 = None ∧
  (∀ other, other ≠ 100 →
     sessions served.1 !! other = sessions alice_world !! other) ∧
  same_accounts alice_world served.1.
Proof.
  apply (logout_removes_only_its_session (P := sample_platform)
           2000 alice_world 100 (sess alice_session)).
  apply alice_world_live.
Defined.

Lemma logout_without_session_removes_nothing_witness :
  let served :=
    serve (P := sample_platform) 90000000 alice_world
          {| cookie := Some 100; target := PostLogout |} in
  served.2 = Some {| answer := res_json SuccessBody; set_cookie := None |} ∧
  sessions served.1 = sessions alice_world.
Proof.
  apply (logout_without_session_removes_nothing (P := sample_platform)
           90000000 alice_world (Some 100)).
  - apply sample_never_repeats.
  - apply alice_world_tokens_issued.
  - intros token [= <-]. vm_compute. reflexivity.
Defined.

Lemma only_logout_deletes_sessions_witness :
  is_Some (sessions (serve (P := sample_platform) 2000 alice_world
                           {| cookie := None; target := PostLogin alice |}).1
             !! 100).
Proof.
  apply (only_logout_deletes_sessions (P := sample_platform));
    [reflexivity |].
  rewrite alice_world_session. by eexists.
Defined.

Lemma login_over_live_session_keeps_token_witness :
  let served :=
    serve (P := sample_platform) 2000 alice_world
          {| cookie := Some 100; target := PostLogin alice |} in
  served.2 =
    Some {| answer := res_json (AuthBody "Logged in" "a@x.com");
            set_cookie := if decide (sess alice_session = session_of alice_row)
                          then None else Some 100 |} ∧
  sessions served.1 !! 100 =
    Some {| sess := session_of alice_row; expire := (2000 + maxAge)%Z |} ∧
  draws served.1 = draws alice_world ∧
  (∀ other, other ≠ 100 →
     sessions served.1 !! other = sessions alice_world !! other).
Proof.
  apply (login_over_live_session_keeps_token (P := sample_platform)
           2000 alice_world 100 (sess alice_session) alice alice_row);
    [apply alice_world_live | reflexivity | reflexivity | reflexivity
    | reflexivity].
Defined.

Lemma signup_twice_conflicts_witness :
  let second :=
    serve (P := sample_platform) 2000 alice_world
          {| cookie := None;
             target := PostSignup {| b_email := JStr "a@x.com";
                                     b_password := JStr "other" |} |} in
  second.2 = Some {| answer := conflict; set_cookie := None |} ∧
  users second.1 = users alice_world.
Proof.
  apply (signup_twice_conflicts (P := sample_platform)
           1000 empty_world None alice
           {| answer := res_json (AuthBody "Account created" "a@x.com");
              set_cookie := Some 100 |} 2000 None (JStr "other"));
    [vm_compute; reflexivity | reflexivity | reflexivity].
Defined.
